(** * KC Events Discord OAuth bridge: a shallow embedding of its route handlers

    The repository holds three versions of the same Express server:
    - [part_000]: the first version; tickets in the Firestore collection
      [discordLinkStates], no expiry check, no mapping store;
    - [part_001]: tickets in [linkStates] with a 15 minute expiry at
      [/start], a best-effort mapping write to the Realtime Database;
    - [index.cjs]: the format-only policy; the state is the user's Discord
      id, checked against [/^\d{17,20}$/] and never stored.

    Every handler is an [async] function. We model it as a resumption
    ([proc]): each [await] of a store or network operation is one atomic
    [Await] step on the shared world, after which other requests may run.
    Running a [proc] to the end gives the sequential semantics; [sched_run]
    interleaves two requests. *)

From stdpp Require Import base gmap strings list fin_maps.
From Stdlib Require Import ZArith Ascii String.

Open Scope Z_scope.

(** ** Data *)

(** A Firestore field value. JS [undefined] is [None] where a value is
    optional; Firestore refuses to write it. *)
Inductive value :=
| VStr (s : string)
| VNum (n : Z)
| VNull.

(** A link ticket document ([linkStates/{state}]); [used] is the truthiness
    of [data().used], [createdAt] the milliseconds written by the bot. *)
Record ticket := mkTicket { used : bool; createdAt : Z }.

(** An entry of the Realtime Database map [discordLinks/{discordId}]. *)
Record link := mkLink { link_uid : string; linkedAt : Z }.

(** Outbound HTTP calls, recorded in order. *)
Inductive call :=
| CallToken (code : string)
| CallIdentity (bearer : option string).

(** The shared world: the Firestore collections, the Realtime Database and
    the log of outbound calls. *)
Record World := mkWorld {
  states : gmap string ticket;                 (* linkStates / discordLinkStates *)
  users : gmap string (gmap string value);     (* users/{uid}, documents as field maps *)
  links : gmap string link;                    (* RTDB discordLinks/{discordId} *)
  rt_users : gmap string (gmap string string); (* RTDB users/{uid}/{field} *)
  calls : list call
}.

(** JSON bodies returned by Discord. *)
Record token_json := mkTokenJson { access_token : option string }.
Record identity := mkIdentity {
  me_id : option string;
  me_username : option string;
  me_avatar : option string;
  me_discriminator : option string
}.

(** What [fetch] yields: a network error (the promise rejects) or a
    response with its [ok] flag and a body that [json()] parses ([None]:
    not JSON, so [json()] rejects). *)
Inductive http_res (J : Type) :=
| NetErr
| Resp (ok : bool) (body : option J).
Arguments NetErr {J}.
Arguments Resp {J} _ _.

(** Store and SDK operations that may reject. *)
Inductive op :=
| GetState | QueryUsers | SetUser | UpdateUser | GetUser
| MarkUsed | SetLink | SetRtUser | CreateToken.

(** What one request meets outside the world: Discord's answers (the
    identity endpoint answers according to the bearer token it is shown),
    which store operations reject, the id [collection('users').doc()]
    draws, and [Date.now()]. *)
Record Env := mkEnv {
  token_res : http_res token_json;
  me_res : option string -> http_res identity;
  fails : op -> bool;
  fresh_id : string;
  now : Z
}.

(** Process configuration. *)
Record Config := mkConfig { client_id : string; redirect_uri : string }.

(** A Firebase custom token: [createCustomToken(uid, claims)]. *)
Record credential := mkCred { cred_uid : string; cred_claims : list (string * string) }.

(** Where a redirect goes. *)
Inductive location :=
| ErrorPage                               (* PUBLIC_WEB_ERROR_URL (or '/') *)
| SuccessPage (c : credential)            (* PUBLIC_WEB_SUCCESS_URL with the token *)
| Authorize (params : list (string * string)) (* Discord's authorize URL, from URLSearchParams *)
| AuthorizeUrl (url : string).             (* a URL string built by hand *)

Inductive response :=
| Redirect (l : location)
| Send (status : Z) (msg : string).

(** Result of an operation or of a handler: [Exn] is a thrown exception
    (a rejected promise). *)
Inductive res (A : Type) := Ok (a : A) | Exn.
Arguments Ok {A} _.
Arguments Exn {A}.

(** ** Requests as resumptions *)

Inductive proc (A : Type) : Type :=
| Ret (a : A)
| Throw
| Await (X : Type) (act : World -> X * World) (k : X -> proc A).
Arguments Ret {A} _.
Arguments Throw {A}.
Arguments Await {A X} _ _.

Fixpoint bind {A B} (p : proc A) (f : A -> proc B) : proc B :=
  match p with
  | Ret a => f a
  | Throw => Throw
  | Await act k => Await act (fun x => bind (k x) f)
  end.

(** [try { p } catch { h }] *)
Fixpoint try_catch {A} (p : proc A) (h : proc A) : proc A :=
  match p with
  | Ret a => Ret a
  | Throw => h
  | Await act k => Await act (fun x => try_catch (k x) h)
  end.

Notation "x <- p ;; q" := (bind p (fun x => q))
  (at level 64, p at next level, right associativity).
Notation "p ;;; q" := (bind p (fun _ => q))
  (at level 64, right associativity).

(** [await e]: the atomic action [e] either rejects or yields a value. *)
Definition await {A} (act : World -> res A * World) : proc A :=
  Await act (fun r => match r with Ok a => Ret a | Exn => Throw end).

(** Running a request alone, from start to finish. *)
Fixpoint run {A} (p : proc A) (w : World) : res A * World :=
  match p with
  | Ret a => (Ok a, w)
  | Throw => (Exn, w)
  | Await act k => let '(x, w') := act w in run (k x) w'
  end.

(** One step of a request: perform its next [await]. *)
Definition step {A} (p : proc A) (w : World) : proc A * World :=
  match p with
  | Await act k => let '(x, w') := act w in (k x, w')
  | _ => (p, w)
  end.

(** Two requests interleaved by a schedule ([true]: the first one takes
    its next step), then each finished alone, the first one first. *)
Fixpoint sched_run {A} (sched : list bool) (p q : proc A) (w : World)
  : res A * res A * World :=
  match sched with
  | [] => let '(rp, w1) := run p w in
          let '(rq, w2) := run q w1 in (rp, rq, w2)
  | true :: s => let '(p', w') := step p w in sched_run s p' q w'
  | false :: s => let '(q', w') := step q w in sched_run s p q' w'
  end.

(** ** JavaScript helpers *)

Global Instance value_eq_dec : EqDecision value.
Proof. solve_decision. Defined.

(** [!q] for a query parameter: absent or the empty string. *)
Definition is_missing (q : option string) : bool :=
  match q with None => true | Some s => String.eqb s "" end.

(** [String(q || '')] *)
Definition or_empty (q : option string) : string :=
  match q with Some s => s | None => "" end.

(** [String(x)] and [`${x}`] for a JSON field that may be [undefined]. *)
Definition js_String (o : option string) : string :=
  match o with Some s => s | None => "undefined" end.

(** Characters [String.prototype.trim] removes (those of one byte). *)
Definition is_js_space (c : ascii) : bool :=
  let n := nat_of_ascii c in
  ((9 <=? n) && (n <=? 13))%nat || (n =? 32)%nat || (n =? 160)%nat.

Fixpoint drop_space (l : list ascii) : list ascii :=
  match l with
  | c :: l' => if is_js_space c then drop_space l' else l
  | [] => []
  end.

(** [s.trim()] *)
Definition trim (s : string) : string :=
  string_of_list_ascii
    (rev (drop_space (rev (drop_space (list_ascii_of_string s))))).

Definition is_digit (c : ascii) : bool :=
  let n := nat_of_ascii c in ((48 <=? n) && (n <=? 57))%nat.

(** [/^\d{17,20}$/.test(s)] *)
Definition is_snowflake (s : string) : bool :=
  ((17 <=? String.length s) && (String.length s <=? 20))%nat
  && forallb is_digit (list_ascii_of_string s).

(** [avatarHash ? `https://cdn.discordapp.com/avatars/${id}/${avatarHash}.png` : null] *)
Definition avatar_url (id : string) (av : option string) : value :=
  match av with
  | Some h => if String.eqb h "" then VNull
              else VStr ("https://cdn.discordapp.com/avatars/" ++ id ++ "/" ++ h ++ ".png")
  | None => VNull
  end.

(** [await res.json()] *)
Definition json {J} (body : option J) : proc J :=
  match body with Some j => Ret j | None => Throw end.

(** ** Store and network operations *)

Section Ops.
Variable e : Env.

Definition guarded {A} (o : op) (act : World -> res A * World) : proc A :=
  await (fun w => if fails e o then (Exn, w) else act w).

Definition with_states (w : World) m :=
  mkWorld m (users w) (links w) (rt_users w) (calls w).
Definition with_users (w : World) m :=
  mkWorld (states w) m (links w) (rt_users w) (calls w).
Definition with_links (w : World) m :=
  mkWorld (states w) (users w) m (rt_users w) (calls w).
Definition with_rt_users (w : World) m :=
  mkWorld (states w) (users w) (links w) m (calls w).
Definition log (c : call) (w : World) :=
  mkWorld (states w) (users w) (links w) (rt_users w) (calls w ++ [c]).

(** [collection(..).doc(id).get()] on the ticket collection. *)
Definition get_ticket (id : string) : proc (option ticket) :=
  guarded GetState (fun w => (Ok (states w !! id), w)).

(** [fetch] of the token endpoint with [code]. *)
Definition fetch_token (code : string) : proc (bool * option token_json) :=
  await (fun w => let w' := log (CallToken code) w in
    match token_res e with
    | NetErr => (Exn, w')
    | Resp ok b => (Ok (ok, b), w')
    end).

(** [fetch('https://discord.com/api/users/@me')] with the bearer token. *)
Definition fetch_me (bearer : option string) : proc (bool * option identity) :=
  await (fun w => let w' := log (CallIdentity bearer) w in
    match me_res e bearer with
    | NetErr => (Exn, w')
    | Resp ok b => (Ok (ok, b), w')
    end).

(** First document of [users] whose [discordId] field is [v]. *)
Definition find_user (us : gmap string (gmap string value)) (v : value) : option string :=
  fst <$> head (filter (fun kr => kr.2 !! "discordId" = Some v) (map_to_list us)).

(** [collection('users').where('discordId', '==', v).limit(1).get()];
    Firestore rejects an [undefined] operand. *)
Definition query_users (v : option value) : proc (option string) :=
  guarded QueryUsers (fun w =>
    match v with
    | None => (Exn, w)
    | Some v => (Ok (find_user (users w) v), w)
    end).

(** The fields of a write, or [None] when one of them is [undefined]. *)
Definition defined_fields (fs : list (string * option value)) : option (list (string * value)) :=
  mapM (fun kv => match kv.2 with Some v => Some (kv.1, v) | None => None end) fs.

Definition merge_fields (fs : list (string * value)) (d : gmap string value) : gmap string value :=
  fold_right (fun kv acc => <[kv.1 := kv.2]> acc) d fs.

(** [ref.set(fields)] (replace) or [ref.set(fields, {merge: true})]. *)
Definition set_user (id : string) (fs : list (string * option value)) (merge : bool) : proc unit :=
  guarded SetUser (fun w =>
    match defined_fields fs with
    | None => (Exn, w)
    | Some fs' =>
        let old := if merge then default ∅ (users w !! id) else ∅ in
        (Ok tt, with_users w (<[id := merge_fields fs' old]> (users w)))
    end).

(** [ref.update(fields)]: rejects on a missing document. *)
Definition update_user (id : string) (fs : list (string * option value)) : proc unit :=
  guarded UpdateUser (fun w =>
    match defined_fields fs, users w !! id with
    | Some fs', Some d => (Ok tt, with_users w (<[id := merge_fields fs' d]> (users w)))
    | _, _ => (Exn, w)
    end).

(** [newRef.get()]: only the document id is used afterwards. *)
Definition get_user (id : string) : proc unit :=
  guarded GetUser (fun w => (Ok tt, w)).

(** [stateRef.update({ used: true })] *)
Definition mark_used (id : string) : proc unit :=
  guarded MarkUsed (fun w =>
    match states w !! id with
    | Some t => (Ok tt, with_states w (<[id := mkTicket true (createdAt t)]> (states w)))
    | None => (Exn, w)
    end).

(** [ref(`discordLinks/${key}`).set({ uid, linkedAt: Date.now() })] *)
Definition set_link (key uid : string) : proc unit :=
  guarded SetLink (fun w =>
    (Ok tt, with_links w (<[key := mkLink uid (now e)]> (links w)))).

(** [ref(`users/${uid}/${field}`).set(v)] *)
Definition set_rt_user (uid field v : string) : proc unit :=
  guarded SetRtUser (fun w =>
    let r := default ∅ (rt_users w !! uid) in
    (Ok tt, with_rt_users w (<[uid := <[field := v]> r]> (rt_users w)))).

(** [admin.auth().createCustomToken(uid, claims)] *)
Definition create_token (uid : string) (claims : list (string * string)) : proc credential :=
  guarded CreateToken (fun w => (Ok (mkCred uid claims), w)).

End Ops.

(** ** [encodeURIComponent]

    A character of a [string] stands for a UTF-16 code unit below 256. *)

(** The characters [encodeURIComponent] leaves as they are:
    [A-Z a-z 0-9 - _ . ! ~ * ' ( )]. *)
Definition is_unreserved (c : ascii) : bool :=
  let n := nat_of_ascii c in
  ((48 <=? n) && (n <=? 57))%nat || ((65 <=? n) && (n <=? 90))%nat
  || ((97 <=? n) && (n <=? 122))%nat
  || existsb (Ascii.eqb c) ["-"; "_"; "."; "!"; "~"; "*"; "'"; "("; ")"]%char.

(** An upper-case hexadecimal digit. *)
Definition hex_digit (n : nat) : ascii :=
  ascii_of_nat (if (n <? 10)%nat then 48 + n else 55 + n)%nat.

(** [%XY] for the byte [n]. *)
Definition pct (n : nat) : list ascii :=
  ["%"%char; hex_digit (n / 16)%nat; hex_digit (n mod 16)%nat].

(** One code unit: itself, or the percent-encoded bytes of its UTF-8 form
    (one byte below 128, two bytes [0xC0 + n/64], [0x80 + n mod 64] up to
    255). *)
Definition enc_char (c : ascii) : list ascii :=
  let n := nat_of_ascii c in
  if is_unreserved c then [c]
  else if (n <? 128)%nat then pct n
  else pct (192 + n / 64)%nat ++ pct (128 + n mod 64)%nat.

(** [encodeURIComponent(s)] *)
Definition encodeURIComponent (s : string) : string :=
  string_of_list_ascii (flat_map enc_char (list_ascii_of_string s)).

(** ** The route handlers *)

(** [src/unnamed/part_000]: nonce tickets in [discordLinkStates]. *)
Module Part000.

(** [oauthUrl]: a template string; [state] goes in as it is, only the
    redirect URI is passed through [encodeURIComponent]. *)
Definition oauthUrl (cfg : Config) (state : string) : string :=
  "https://discord.com/oauth2/authorize?client_id=" ++ client_id cfg ++
  "&response_type=code&scope=identify&state=" ++ state ++
  "&redirect_uri=" ++ encodeURIComponent (redirect_uri cfg).

(** [GET /oauth/discord/start]; no [try]: a rejected read escapes. *)
Definition start (cfg : Config) (e : Env) (state : option string) : proc response :=
  if is_missing state then Ret (Send 400 "Missing state") else
  let s := or_empty state in
  t <- get_ticket e s;;
  match t with
  | Some t => if used t then Ret (Redirect ErrorPage)
              else Ret (Redirect (AuthorizeUrl (oauthUrl cfg s)))
  | None => Ret (Redirect ErrorPage)
  end.

(** The find-or-create step: [userRef] is the first match or a new
    document, written with [set(.., { merge: true })]. *)
Definition reconcile_user (e : Env) (userData : identity) : proc string :=
  found <- query_users e (VStr <$> me_id userData);;
  let uid := match found with Some id => id | None => fresh_id e end in
  set_user e uid
    [("discordId", VStr <$> me_id userData);
     ("discordUsername",
       Some (VStr (js_String (me_username userData) ++ "#"
                   ++ js_String (me_discriminator userData))));
     ("discordAvatarURL",
       Some (avatar_url (js_String (me_id userData)) (me_avatar userData)))] true;;;
  Ret uid.

(** [GET /oauth/discord/callback]: the ticket check runs before the
    [try]; the token response is parsed without looking at [ok]. *)
Definition callback (e : Env) (code state : option string) : proc response :=
  if is_missing code || is_missing state then Ret (Redirect ErrorPage) else
  let c := or_empty code in
  let s := or_empty state in
  t <- get_ticket e s;;
  match t with
  | None => Ret (Redirect ErrorPage)
  | Some t =>
    if used t then Ret (Redirect ErrorPage) else
    try_catch (
      tr <- fetch_token e c;;
      tokenData <- json tr.2;;
      ur <- fetch_me e (access_token tokenData);;
      userData <- json ur.2;;
      uid <- reconcile_user e userData;;
      mark_used e s;;;
      cred <- create_token e uid [];;
      Ret (Redirect (SuccessPage cred)))
      (Ret (Redirect ErrorPage))
  end.

End Part000.

(** [src/unnamed/part_001]: nonce tickets in [linkStates], with expiry. *)
Module Part001.

Definition maxAgeMs : Z := 15 * 60 * 1000.

Definition authorize_params (cfg : Config) (state : string) : list (string * string) :=
  [("client_id", client_id cfg); ("redirect_uri", redirect_uri cfg);
   ("response_type", "code"); ("scope", "identify"); ("state", state)].

(** [GET /oauth/discord/start] *)
Definition start (cfg : Config) (e : Env) (state : option string) : proc response :=
  try_catch (
    if is_missing state then Ret (Send 400 "Missing state") else
    let s := or_empty state in
    t <- get_ticket e s;;
    match t with
    | None => Ret (Send 400 "Unknown state")
    | Some data =>
      if used data || (now e - createdAt data >? maxAgeMs)
      then Ret (Send 400 "State expired or already used")
      else Ret (Redirect (Authorize (authorize_params cfg s)))
    end)
    (Ret (Send 500 "Internal error")).

(** The find-or-create step: returns the [uid] of the user document. *)
Definition reconcile_user (e : Env) (discordId : string) (username : option string)
    (avatarUrl : value) : proc string :=
  found <- query_users e (Some (VStr discordId));;
  match found with
  | None =>
    set_user e (fresh_id e)
      [("displayName", VStr <$> username); ("username", VStr <$> username);
       ("joined", Some (VNum (now e))); ("discordId", Some (VStr discordId));
       ("discordUsername", VStr <$> username); ("discordAvatarURL", Some avatarUrl)] false;;;
    get_user e (fresh_id e);;;
    Ret (fresh_id e)
  | Some id =>
    update_user e id
      [("discordId", Some (VStr discordId)); ("discordUsername", VStr <$> username);
       ("discordAvatarURL", Some avatarUrl)];;;
    Ret id
  end.

(** [GET /oauth/discord/callback] *)
Definition callback (e : Env) (code state : option string) : proc response :=
  try_catch (
    if is_missing code || is_missing state then Ret (Send 400 "Missing code or state") else
    let c := or_empty code in
    let s := or_empty state in
    t <- get_ticket e s;;
    match t with
    | None => Ret (Send 400 "Invalid or used state")
    | Some t =>
      if used t then Ret (Send 400 "Invalid or used state") else
      tokenRes <- fetch_token e c;;
      if negb tokenRes.1 then Ret (Redirect ErrorPage) else
      tokenData <- json tokenRes.2;;
      userRes <- fetch_me e (access_token tokenData);;
      if negb userRes.1 then Ret (Redirect ErrorPage) else
      me <- json userRes.2;;
      let discordId := js_String (me_id me) in
      let avatarUrl := avatar_url discordId (me_avatar me) in
      uid <- reconcile_user e discordId (me_username me) avatarUrl;;
      mark_used e s;;;
      try_catch (set_link e discordId uid;;; set_rt_user e uid "discordId" discordId)
                (Ret tt);;;
      cred <- create_token e uid [("discordId", discordId)];;
      Ret (Redirect (SuccessPage cred))
    end)
    (Ret (Redirect ErrorPage)).

End Part001.

(** [src/index.cjs]: format-only policy, the state is a Discord id. *)
Module Index.

Definition authorize_params (cfg : Config) (state : string) : list (string * string) :=
  [("client_id", client_id cfg); ("redirect_uri", redirect_uri cfg);
   ("response_type", "code"); ("scope", "identify"); ("state", state);
   ("prompt", "consent")].

(** [GET /oauth/discord/start] *)
Definition start (cfg : Config) (e : Env) (state : option string) : proc response :=
  try_catch (
    let s := trim (or_empty state) in
    if negb (is_snowflake s) then Ret (Send 400 "Bad state")
    else Ret (Redirect (Authorize (authorize_params cfg s))))
    (Ret (Send 500 "Start error")).

(** [discordIdFromState] when it is well formed, else [discordUser?.id || ''] *)
Definition mapping_key (state : option string) (fetched : option string) : string :=
  let fromState := trim (or_empty state) in
  if is_snowflake fromState then fromState else or_empty fetched.

(** [GET /oauth/discord/callback] *)
Definition callback (e : Env) (code state : option string) : proc response :=
  try_catch (
    if is_missing code || is_missing state then Ret (Send 400 "Missing code or state") else
    let c := or_empty code in
    tokenRes <- fetch_token e c;;
    if negb tokenRes.1 then Ret (Redirect ErrorPage) else
    tokenData <- json tokenRes.2;;
    userRes <- fetch_me e (access_token tokenData);;
    if negb userRes.1 then Ret (Redirect ErrorPage) else
    discordUser <- json userRes.2;;
    let discordIdFromApi := js_String (me_id discordUser) in
    let avatarUrl := avatar_url discordIdFromApi (me_avatar discordUser) in
    (* lines 224-254 are those of part_001, lines 231-262 *)
    uid <- Part001.reconcile_user e discordIdFromApi (me_username discordUser) avatarUrl;;
    let discordId := mapping_key state (me_id discordUser) in
    if negb (is_snowflake discordId) then Ret (Send 400 "Missing discord id") else
    set_link e discordId uid;;;
    set_rt_user e uid "linkedDiscordId" discordId;;;
    cred <- create_token e uid [("discordId", discordId)];;
    Ret (Redirect (SuccessPage cred)))
    (Ret (Redirect ErrorPage)).

End Index.

(** [GET /discord-login-success], the same in [part_001] (lines 77-119)
    and [index.cjs] (lines 74-116): the link of the page. A query value is
    a single string here (a repeated or bracketed parameter is not
    modelled). *)
Module LoginPage.

Definition baseLoginUrl : string := "https://kcevents.uk/#loginpage".

(** [req.query.customToken || req.query.token] *)
Definition chosen_token (customToken token : option string) : option string :=
  if is_missing customToken then token else customToken.

(** [token ? `${baseLoginUrl}?token=${encodeURIComponent(token)}` : baseLoginUrl] *)
Definition loginUrl (customToken token : option string) : string :=
  let tok := chosen_token customToken token in
  if is_missing tok then baseLoginUrl
  else baseLoginUrl ++ "?token=" ++ encodeURIComponent (or_empty tok).

End LoginPage.

(** Reading a percent-encoded string back; a left inverse of
    [encodeURIComponent], used to show that it loses nothing. *)
Definition hexval (c : ascii) : option nat :=
  let n := nat_of_ascii c in
  if ((48 <=? n) && (n <=? 57))%nat then Some (n - 48)%nat
  else if ((65 <=? n) && (n <=? 70))%nat then Some (n - 55)%nat else None.
Fixpoint pct_decode (l : list ascii) : option (list ascii) :=
  match l with
  | [] => Some []
  | c :: l1 =>
    if Ascii.eqb c "%"%char then
      match l1 with
      | h1 :: h2 :: l2 =>
        match hexval h1, hexval h2 with
        | Some a, Some b =>
          let n := (16 * a + b)%nat in
          if (n <? 128)%nat then cons (ascii_of_nat n) <$> pct_decode l2
          else match l2 with
               | p :: g1 :: g2 :: l3 =>
                 match hexval g1, hexval g2 with
                 | Some x, Some y =>
                   if Ascii.eqb p "%"%char
                   then cons (ascii_of_nat ((n - 192) * 64 + (16 * x + y - 128)))%nat
                          <$> pct_decode l3
                   else None
                 | _, _ => None
                 end
               | _ => None
               end
        | _, _ => None
        end
      | _ => None
      end
    else cons c <$> pct_decode l1
  end.
(** The characters a link of the success page may hold. *)
Definition url_char (c : ascii) : bool :=
  is_unreserved c || existsb (Ascii.eqb c) ["%"; ":"; "/"; "#"; "?"; "="]%char.
(** The double quote that closes the [href] attribute. *)
Definition dquote : ascii := ascii_of_nat 34.

(** ** Sample inputs *)

Definition cfg_demo : Config :=
  mkConfig "client" "https://auth.kcevents.uk/oauth/discord/callback".

Definition alice_id : string := "123456789012345678".
Definition alice : identity := mkIdentity (Some alice_id) (Some "alice") None None.

(** Body of Discord's 401 answer ([{"message": "401: Unauthorized", "code": 0}]). *)
Definition unauthorized : identity := mkIdentity None None None None.

(** The identity endpoint: [me] for the bearer token [tok], 401 otherwise. *)
Definition discord_me (tok : string) (me : identity) (bearer : option string)
  : http_res identity :=
  if decide (bearer = Some tok) then Resp true (Some me) else Resp false (Some unauthorized).

(** A request whose calls all succeed, for the identity [me]. *)
Definition env_for (me : identity) : Env :=
  mkEnv (Resp true (Some (mkTokenJson (Some "tok")))) (discord_me "tok" me)
        (fun _ => false) "newUserDoc" 1000000.

Definition env_ok : Env := env_for alice.

(** One unused ticket [T1], created at time 0, and no users. *)
Definition w_demo : World := mkWorld {[ "T1" := mkTicket false 0 ]} ∅ ∅ ∅ [].

(** [w_demo] with a user document [u1] already linked to [alice_id]. *)
Definition w_known : World :=
  mkWorld {[ "T1" := mkTicket false 0 ]}
          {[ "u1" := {[ "discordId" := VStr alice_id; "email" := VStr "a@kc.uk";
                        "discordUsername" := VStr "old" ]} ]} ∅ ∅ [].

(** A request whose token exchange answers 401 with a body that has no
    [access_token]; the identity endpoint then answers 401 as well. *)
Definition env_badtoken : Env :=
  mkEnv (Resp false (Some (mkTokenJson None))) (discord_me "tok" alice)
        (fun _ => false) "newUserDoc" 1000000.

(** As [env_ok], but the Realtime Database rejects the [discordLinks] write. *)
Definition env_nolink : Env :=
  mkEnv (Resp true (Some (mkTokenJson (Some "tok")))) (discord_me "tok" alice)
        (fun o => match o with SetLink => true | _ => false end) "newUserDoc" 1000000.

(** A well-formed snowflake that is not [alice_id]. *)
Definition other_id : string := "11111111111111111".

(** As [env_ok], but [createCustomToken] rejects. *)
Definition env_nocred : Env :=
  mkEnv (Resp true (Some (mkTokenJson (Some "tok")))) (discord_me "tok" alice)
        (fun o => match o with CreateToken => true | _ => false end) "newUserDoc" 1000000.
(** Identity answers without [id], and without [username]. *)
Definition no_id : identity := mkIdentity None (Some "bob") None None.
Definition env_noid : Env := env_for no_id.
Definition no_name : identity := mkIdentity (Some alice_id) None None None.
Definition env_noname : Env := env_for no_name.


(** ** Observations on outcomes *)

(** The handler redirected to the success page with a credential. *)
Definition is_success (r : res response) : bool :=
  match r with Ok (Redirect (SuccessPage _)) => true | _ => false end.

(** The ticket read by [stateRef.get()] passes [!exists || used]. *)
Definition ticket_usable (o : option ticket) : bool :=
  match o with Some t => negb (used t) | None => false end.

(** ** Running a request: equations *)

Lemma run_bind {A B} (p : proc A) (f : A -> proc B) (w : World) :
  run (bind p f) w =
  match run p w with (Ok a, w') => run (f a) w' | (Exn, w') => (Exn, w') end.
Proof.
  revert w; induction p as [a| |X act k IH]; intros w; simpl; auto.
  destruct (act w); auto.
Qed.

Lemma run_try {A} (p h : proc A) (w : World) :
  run (try_catch p h) w =
  match run p w with (Ok a, w') => (Ok a, w') | (Exn, w') => run h w' end.
Proof.
  revert w; induction p as [a| |X act k IH]; intros w; simpl; auto.
  destruct (act w); auto.
Qed.

Lemma run_await {A} (act : World -> res A * World) (w : World) :
  run (await act) w = act w.
Proof. unfold await; simpl. destruct (act w) as [[a|] w']; reflexivity. Qed.

Lemma run_guarded {A} e o (act : World -> res A * World) (w : World) :
  run (guarded e o act) w = if fails e o then (Exn, w) else act w.
Proof. unfold guarded. rewrite run_await. reflexivity. Qed.

Arguments get_ticket : simpl never.
Arguments fetch_token : simpl never.
Arguments fetch_me : simpl never.
Arguments query_users : simpl never.
Arguments set_user : simpl never.
Arguments update_user : simpl never.
Arguments get_user : simpl never.
Arguments mark_used : simpl never.
Arguments set_link : simpl never.
Arguments set_rt_user : simpl never.
Arguments create_token : simpl never.
Arguments Part000.reconcile_user : simpl never.
Arguments Part001.reconcile_user : simpl never.

Create Rewrite HintDb run_db.

Section OpEquations.
Variables (e : Env) (w : World).

Lemma run_get_ticket id :
  run (get_ticket e id) w =
  if fails e GetState then (Exn, w) else (Ok (states w !! id), w).
Proof. unfold get_ticket, guarded; rewrite run_await; reflexivity. Qed.

Lemma run_fetch_token code :
  run (fetch_token e code) w =
  match token_res e with
  | NetErr => (Exn, log (CallToken code) w)
  | Resp ok b => (Ok (ok, b), log (CallToken code) w)
  end.
Proof. unfold fetch_token, guarded; rewrite run_await; reflexivity. Qed.

Lemma run_fetch_me bearer :
  run (fetch_me e bearer) w =
  match me_res e bearer with
  | NetErr => (Exn, log (CallIdentity bearer) w)
  | Resp ok b => (Ok (ok, b), log (CallIdentity bearer) w)
  end.
Proof. unfold fetch_me, guarded; rewrite run_await; reflexivity. Qed.

Lemma run_query_users v :
  run (query_users e v) w =
  if fails e QueryUsers then (Exn, w) else
  match v with None => (Exn, w) | Some v => (Ok (find_user (users w) v), w) end.
Proof. unfold query_users, guarded; rewrite run_await; reflexivity. Qed.

Lemma run_set_user id fs merge :
  run (set_user e id fs merge) w =
  if fails e SetUser then (Exn, w) else
  match defined_fields fs with
  | None => (Exn, w)
  | Some fs' =>
      (Ok tt, with_users w (<[id := merge_fields fs'
                 (if merge then default ∅ (users w !! id) else ∅)]> (users w)))
  end.
Proof. unfold set_user, guarded; rewrite run_await; reflexivity. Qed.

Lemma run_update_user id fs :
  run (update_user e id fs) w =
  if fails e UpdateUser then (Exn, w) else
  match defined_fields fs, users w !! id with
  | Some fs', Some d => (Ok tt, with_users w (<[id := merge_fields fs' d]> (users w)))
  | _, _ => (Exn, w)
  end.
Proof. unfold update_user, guarded; rewrite run_await; reflexivity. Qed.

Lemma run_get_user id :
  run (get_user e id) w = if fails e GetUser then (Exn, w) else (Ok tt, w).
Proof. unfold get_user, guarded; rewrite run_await; reflexivity. Qed.

Lemma run_mark_used id :
  run (mark_used e id) w =
  if fails e MarkUsed then (Exn, w) else
  match states w !! id with
  | Some t => (Ok tt, with_states w (<[id := mkTicket true (createdAt t)]> (states w)))
  | None => (Exn, w)
  end.
Proof. unfold mark_used, guarded; rewrite run_await; reflexivity. Qed.

Lemma run_set_link key uid :
  run (set_link e key uid) w =
  if fails e SetLink then (Exn, w) else
  (Ok tt, with_links w (<[key := mkLink uid (now e)]> (links w))).
Proof. unfold set_link, guarded; rewrite run_await; reflexivity. Qed.

Lemma run_set_rt_user uid field v :
  run (set_rt_user e uid field v) w =
  if fails e SetRtUser then (Exn, w) else
  (Ok tt, with_rt_users w (<[uid := <[field := v]> (default ∅ (rt_users w !! uid))]>
                            (rt_users w))).
Proof. unfold set_rt_user, guarded; rewrite run_await; reflexivity. Qed.

Lemma run_create_token uid claims :
  run (create_token e uid claims) w =
  if fails e CreateToken then (Exn, w) else (Ok (mkCred uid claims), w).
Proof. unfold create_token, guarded; rewrite run_await; reflexivity. Qed.

End OpEquations.

Lemma run_json {J} (b : option J) w :
  run (json b) w = match b with Some j => (Ok j, w) | None => (Exn, w) end.
Proof. destruct b; reflexivity. Qed.

Lemma run_ret {A} (a : A) w : run (Ret a) w = (Ok a, w).
Proof. reflexivity. Qed.

Lemma run_throw {A} w : run (@Throw A) w = (Exn, w).
Proof. reflexivity. Qed.

Global Hint Rewrite @run_bind @run_try @run_ret @run_throw
  run_get_ticket run_fetch_token run_fetch_me run_query_users run_set_user
  run_update_user run_get_user run_mark_used run_set_link run_set_rt_user
  run_create_token @run_json : run_db.

Arguments json : simpl never.
Arguments with_states w m /.
Arguments with_users w m /.
Arguments with_links w m /.
Arguments with_rt_users w m /.
Arguments log c w /.

(** Destruct the innermost scrutinee that blocks the evaluation of [H]. *)
Ltac head_case H :=
  match type of H with
  | context [match ?x with _ => _ end] =>
      lazymatch x with
      | context [match _ with _ => _ end] => fail
      | _ => destruct x eqn:?
      end
  end.

(** Symbolic execution of a run equation [H : run p w = r]. *)
Tactic Notation "sym" ident(H) :=
  repeat (assert_succeeds (clear H);
          first [ progress (autorewrite with run_db in H)
               | progress (cbn in H)
               | discriminate H
               | injection H as <- <-
               | injection H as <-
               | head_case H ]).

(** ** Facts about the store *)

Lemma find_user_Some (us : gmap string (gmap string value)) v id :
  find_user us v = Some id -> exists d, us !! id = Some d /\ d !! "discordId" = Some v.
Proof.
  unfold find_user.
  destruct (filter _ (map_to_list us)) as [|[k d] l] eqn:Hf; simpl; intros Hid;
    simplify_eq.
  assert (Hin : (id, d) ∈ filter (fun kr => kr.2 !! "discordId" = Some v) (map_to_list us))
    by (rewrite Hf; left).
  apply list_elem_of_filter in Hin as [Hv Hin]. simpl in Hv.
  apply elem_of_map_to_list in Hin. eauto.
Qed.

Lemma find_user_None (us : gmap string (gmap string value)) v :
  find_user us v = None ->
  forall id d, us !! id = Some d -> d !! "discordId" <> Some v.
Proof.
  unfold find_user.
  destruct (filter _ (map_to_list us)) as [|[k d] l] eqn:Hf; simpl; intros Hn;
    try discriminate.
  intros id d Hd Hv.
  eapply (filter_nil_not_elem_of _ _ (id, d)); [exact Hf | exact Hv |].
  by apply elem_of_map_to_list.
Qed.

Lemma dom_insert_present {V} (m : gmap string V) k v :
  is_Some (m !! k) -> dom (<[k := v]> m) = dom m.
Proof.
  intros Hk. rewrite dom_insert_L. apply elem_of_dom in Hk. set_solver.
Qed.

(** Reconciling an identity that matches the user document [id]. *)
Lemma Part001_reconcile_found e E un av w id r w' :
  find_user (users w) (VStr E) = Some id ->
  run (Part001.reconcile_user e E un av) w = (r, w') ->
  (w' = w /\ r = Exn) \/
  exists d u, users w !! id = Some d /\ un = Some u /\ r = Ok id /\
    w' = with_users w (<[id := merge_fields
           [("discordId", VStr E); ("discordUsername", VStr u);
            ("discordAvatarURL", av)] d]> (users w)).
Proof.
  intros Hf H. unfold Part001.reconcile_user in H.
  sym H; simplify_eq; eauto.
  - destruct un; simplify_eq/=; eauto 10.
Qed.

(** Reconciling an identity that matches no user document. *)
Lemma Part001_reconcile_new e E un av w uid w' :
  find_user (users w) (VStr E) = None ->
  run (Part001.reconcile_user e E un av) w = (Ok uid, w') ->
  exists u, un = Some u /\ uid = fresh_id e /\
    w' = with_users w (<[fresh_id e := merge_fields
           [("displayName", VStr u); ("username", VStr u);
            ("joined", VNum (now e)); ("discordId", VStr E);
            ("discordUsername", VStr u); ("discordAvatarURL", av)] ∅]> (users w)).
Proof.
  intros Hf H. unfold Part001.reconcile_user in H.
  sym H; rewrite ?Hf in *; simplify_eq; try congruence.
  destruct un as [u|]; simplify_eq/=. exists u; split_and!; reflexivity.
Qed.

(** The same two cases for the find-or-create of [part_000]. *)
Lemma Part000_reconcile_found e me E w id r w' :
  me_id me = Some E ->
  find_user (users w) (VStr E) = Some id ->
  run (Part000.reconcile_user e me) w = (r, w') ->
  (w' = w /\ r = Exn) \/
  exists d, users w !! id = Some d /\ r = Ok id /\
    w' = with_users w (<[id := merge_fields
           [("discordId", VStr E);
            ("discordUsername", VStr (js_String (me_username me) ++ "#"
                                      ++ js_String (me_discriminator me)));
            ("discordAvatarURL", avatar_url E (me_avatar me))] d]> (users w)).
Proof.
  intros Hid Hf H. unfold Part000.reconcile_user in H. rewrite Hid in H.
  simpl in H.
  sym H; simplify_eq; rewrite ?Hf; try (left; done).
  destruct (find_user_Some _ _ _ Hf) as (d & Hd & _).
  right. exists d. rewrite Hd. auto.
Qed.

Lemma Part000_reconcile_new e me E w uid w' :
  me_id me = Some E ->
  find_user (users w) (VStr E) = None ->
  run (Part000.reconcile_user e me) w = (Ok uid, w') ->
  uid = fresh_id e /\
    w' = with_users w (<[fresh_id e := merge_fields
           [("discordId", VStr E);
            ("discordUsername", VStr (js_String (me_username me) ++ "#"
                                      ++ js_String (me_discriminator me)));
            ("discordAvatarURL", avatar_url E (me_avatar me))]
           (default ∅ (users w !! fresh_id e))]> (users w)).
Proof.
  intros Hid Hf H. unfold Part000.reconcile_user in H. rewrite Hid in H.
  simpl in H.
  sym H; simplify_eq; rewrite ?Hf; auto.
Qed.

(** What a completed or failed find-or-create leaves behind. *)
Lemma Part001_reconcile_frame e E un av w r w' :
  run (Part001.reconcile_user e E un av) w = (r, w') ->
  states w' = states w /\ links w' = links w /\ rt_users w' = rt_users w /\ calls w' = calls w.
Proof. intros H. unfold Part001.reconcile_user in H. sym H; simplify_eq/=; auto. Qed.

Lemma Part001_reconcile_ok e E un av w uid w' :
  run (Part001.reconcile_user e E un av) w = (Ok uid, w') ->
  (exists d, users w' !! uid = Some d /\ d !! "discordId" = Some (VStr E)) /\
  (find_user (users w) (VStr E) = None -> uid = fresh_id e).
Proof.
  intros H. unfold Part001.reconcile_user in H.
  sym H; simplify_eq/=.
  all: split; [eexists; split; [apply lookup_insert_eq | by simplify_map_eq]
              | intros; by simplify_eq].
Qed.

Lemma Part000_reconcile_frame e me w r w' :
  run (Part000.reconcile_user e me) w = (r, w') ->
  states w' = states w /\ links w' = links w /\ rt_users w' = rt_users w /\ calls w' = calls w.
Proof. intros H. unfold Part000.reconcile_user in H. sym H; simplify_eq/=; auto. Qed.




(** Identities the find-or-create refuses, and when it completes. *)
Lemma Part001_reconcile_no_username e E av w :
  run (Part001.reconcile_user e E None av) w = (Exn, w).
Proof.
  unfold Part001.reconcile_user. autorewrite with run_db.
  destruct (fails e QueryUsers); [done|]. simpl.
  destruct (find_user _ _); autorewrite with run_db; simpl;
    destruct (fails e _); done.
Qed.

Lemma Part000_reconcile_no_id e me w :
  me_id me = None -> run (Part000.reconcile_user e me) w = (Exn, w).
Proof.
  intros Hid. unfold Part000.reconcile_user. rewrite Hid. autorewrite with run_db.
  by destruct (fails e QueryUsers).
Qed.

Lemma Part001_reconcile_completes e E u av w r w' :
  fails e QueryUsers = false -> fails e SetUser = false ->
  fails e UpdateUser = false -> fails e GetUser = false ->
  run (Part001.reconcile_user e E (Some u) av) w = (r, w') -> r <> Exn.
Proof.
  intros Hq Hs Hu Hg H. unfold Part001.reconcile_user in H.
  sym H; try congruence.
  destruct (find_user_Some _ _ _ Heqo) as (d & Hd & _). congruence.
Qed.

Lemma Part000_reconcile_completes e me E w r w' :
  me_id me = Some E -> fails e QueryUsers = false -> fails e SetUser = false ->
  run (Part000.reconcile_user e me) w = (r, w') -> r <> Exn.
Proof.
  intros Hid Hq Hs H. unfold Part000.reconcile_user in H. rewrite Hid in H.
  sym H; congruence.
Qed.

(** In the handlers below, the find-or-create step is reasoned about
    through the lemmas above only. *)
Opaque Part000.reconcile_user Part001.reconcile_user.

(** ** The callbacks: what a run implies *)

(** Bring the frame of a completed find-or-create into the context. *)
Ltac use_frames :=
  repeat match goal with
    | Hb : negb ?b = false |- _ => apply negb_false_iff in Hb; try subst b
    | Hb : negb ?b = true |- _ => apply negb_true_iff in Hb
    | Hp : run (Part001.reconcile_user _ _ _ _) _ = _ |- _ =>
        let Hs := fresh "Hs" in let Hl := fresh "Hl" in let Hr := fresh "Hr" in
        let Hc := fresh "Hc" in
        destruct (Part001_reconcile_frame _ _ _ _ _ _ _ Hp) as (Hs & Hl & Hr & Hc);
        simpl in Hs, Hl, Hr, Hc; revert Hp
    | Hp : run (Part000.reconcile_user _ _) _ = _ |- _ =>
        let Hs := fresh "Hs" in let Hl := fresh "Hl" in let Hr := fresh "Hr" in
        let Hc := fresh "Hc" in
        destruct (Part000_reconcile_frame _ _ _ _ _ Hp) as (Hs & Hl & Hr & Hc);
        simpl in Hs, Hl, Hr, Hc; revert Hp
    end; intros.

(** A credential issued by [part_001]: the checks and calls it passed and
    the writes it made. *)
Lemma Part001_callback_success e code state w c w' :
  run (Part001.callback e code state) w = (Ok (Redirect (SuccessPage c)), w') ->
  exists t tk me w1,
    states w !! or_empty state = Some t /\ used t = false /\
    token_res e = Resp true (Some tk) /\ me_res e (access_token tk) = Resp true (Some me) /\
    run (Part001.reconcile_user e (js_String (me_id me)) (me_username me)
           (avatar_url (js_String (me_id me)) (me_avatar me)))
        (log (CallIdentity (access_token tk)) (log (CallToken (or_empty code)) w))
      = (Ok (cred_uid c), w1) /\
    states w' = <[or_empty state := mkTicket true (createdAt t)]> (states w) /\
    users w' = users w1 /\
    links w' = (if fails e SetLink then links w
                else <[js_String (me_id me) := mkLink (cred_uid c) (now e)]> (links w)) /\
    cred_claims c = [("discordId", js_String (me_id me))].
Proof.
  intros H. unfold Part001.callback in H.
  sym H.
  all: repeat match goal with
    | Hb : negb ?b = false |- _ => apply negb_false_iff in Hb; try subst b
    | Hb : negb ?b = true |- _ => apply negb_true_iff in Hb
    end.
  all: match goal with
    | Hp : run (Part001.reconcile_user _ _ _ _) _ = _ |- _ =>
        destruct (Part001_reconcile_frame _ _ _ _ _ _ _ Hp) as (Hs & Hl & _ & _);
        simpl in Hs, Hl
    end.
  all: rewrite Hs in *; simplify_eq.
  all: eexists _, _, _, _; split_and!; try eassumption; simpl; rewrite ?Hs, ?Hl; try reflexivity.
Qed.

(** The effect of any [part_001] callback on the tickets. *)
Lemma Part001_callback_states e code state w r w' :
  run (Part001.callback e code state) w = (r, w') ->
  states w' = states w \/
  exists t tk me uid w1,
    states w !! or_empty state = Some t /\ used t = false /\
    states w' = <[or_empty state := mkTicket true (createdAt t)]> (states w) /\
    token_res e = Resp true (Some tk) /\ me_res e (access_token tk) = Resp true (Some me) /\
    run (Part001.reconcile_user e (js_String (me_id me)) (me_username me)
           (avatar_url (js_String (me_id me)) (me_avatar me)))
        (log (CallIdentity (access_token tk)) (log (CallToken (or_empty code)) w))
      = (Ok uid, w1).
Proof.
  intros H. unfold Part001.callback in H.
  sym H; use_frames; simpl; rewrite ?Hs; auto.
  all: rewrite Hs in *; simplify_eq; right; eexists _, _, _, _, _; split_and!; eauto.
Qed.

(** The effect of any [part_000] callback on the tickets. *)
Lemma Part000_callback_states e code state w r w' :
  run (Part000.callback e code state) w = (r, w') ->
  states w' = states w \/
  exists t tk me uid w1,
    states w !! or_empty state = Some t /\ used t = false /\
    states w' = <[or_empty state := mkTicket true (createdAt t)]> (states w) /\
    (exists ok, token_res e = Resp ok (Some tk)) /\
    (exists ok, me_res e (access_token tk) = Resp ok (Some me)) /\
    run (Part000.reconcile_user e me)
        (log (CallIdentity (access_token tk)) (log (CallToken (or_empty code)) w))
      = (Ok uid, w1).
Proof.
  intros H. unfold Part000.callback in H.
  sym H; use_frames; simpl; rewrite ?Hs; auto.
  all: rewrite Hs in *; simplify_eq; right; eexists _, _, _, _, _; split_and!; eauto.
Qed.

(** A credential issued by [part_000]. *)
Lemma Part000_callback_success e code state w c w' :
  run (Part000.callback e code state) w = (Ok (Redirect (SuccessPage c)), w') ->
  exists t tk me w1,
    states w !! or_empty state = Some t /\ used t = false /\
    (exists ok, token_res e = Resp ok (Some tk)) /\
    (exists ok, me_res e (access_token tk) = Resp ok (Some me)) /\
    run (Part000.reconcile_user e me)
        (log (CallIdentity (access_token tk)) (log (CallToken (or_empty code)) w))
      = (Ok (cred_uid c), w1) /\
    states w' = <[or_empty state := mkTicket true (createdAt t)]> (states w) /\
    users w' = users w1 /\ links w' = links w /\ cred_claims c = [].
Proof.
  intros H. unfold Part000.callback in H.
  sym H; use_frames.
  all: rewrite Hs in *; simplify_eq.
  all: eexists _, _, _, _; split_and!; eauto; simpl; rewrite ?Hs, ?Hl; reflexivity.
Qed.

(** A credential issued by [index.cjs]. *)
Lemma Index_callback_success e code state w c w' :
  run (Index.callback e code state) w = (Ok (Redirect (SuccessPage c)), w') ->
  exists tk me w1,
    token_res e = Resp true (Some tk) /\ me_res e (access_token tk) = Resp true (Some me) /\
    run (Part001.reconcile_user e (js_String (me_id me)) (me_username me)
           (avatar_url (js_String (me_id me)) (me_avatar me)))
        (log (CallIdentity (access_token tk)) (log (CallToken (or_empty code)) w))
      = (Ok (cred_uid c), w1) /\
    is_snowflake (Index.mapping_key state (me_id me)) = true /\
    states w' = states w /\ users w' = users w1 /\
    links w' = <[Index.mapping_key state (me_id me) := mkLink (cred_uid c) (now e)]> (links w) /\
    (exists r, rt_users w' !! cred_uid c = Some r /\
               r !! "linkedDiscordId" = Some (Index.mapping_key state (me_id me))) /\
    cred_claims c = [("discordId", Index.mapping_key state (me_id me))].
Proof.
  intros H. unfold Index.callback in H.
  sym H; use_frames.
  all: simplify_eq.
  all: eexists _, _, _; split_and!; eauto; simpl; rewrite ?Hs, ?Hl; try reflexivity.
  eexists; split; [apply lookup_insert_eq | by simplify_map_eq].
Qed.

(** A callback on a missing or used ticket changes nothing and issues no
    credential. *)
Lemma Part001_callback_stale e code state w r w' :
  ticket_usable (states w !! or_empty state) = false ->
  run (Part001.callback e code state) w = (r, w') ->
  w' = w /\ is_success r = false.
Proof.
  intros Hst H. unfold Part001.callback in H.
  sym H; auto.
  all: simpl in Hst; match goal with Hu : used _ = false |- _ => rewrite Hu in Hst end;
       discriminate.
Qed.

Lemma Part000_callback_stale e code state w r w' :
  ticket_usable (states w !! or_empty state) = false ->
  run (Part000.callback e code state) w = (r, w') ->
  w' = w /\ is_success r = false.
Proof.
  intros Hst H. unfold Part000.callback in H.
  sym H; auto.
  all: simpl in Hst; match goal with Hu : used _ = false |- _ => rewrite Hu in Hst end;
       discriminate.
Qed.

Lemma ticket_usable_used (s : string) t (m : gmap string ticket) :
  m !! s = Some t -> used t = true -> ticket_usable (m !! s) = false.
Proof. intros -> Hu. simpl. by rewrite Hu. Qed.

Lemma ticket_usable_Some (s : string) t (m : gmap string ticket) :
  m !! s = Some t -> used t = false -> ticket_usable (m !! s) = true.
Proof. intros -> Hu. simpl. by rewrite Hu. Qed.


Lemma or_empty_snowflake o K :
  or_empty o = K -> is_snowflake K = true -> o = Some K.
Proof. destruct o; simpl; intros <-; [done | discriminate]. Qed.

(** The siblings of [part_000] stop at a rejected token exchange: the
    identity endpoint is not called and the answer is the error redirect. *)
Lemma Part001_token_failure e code state w r w' b :
  token_res e = Resp false b ->
  run (Part001.callback e code state) w = (r, w') ->
  calls w' = calls w \/
  (calls w' = calls w ++ [CallToken (or_empty code)] /\ r = Ok (Redirect ErrorPage)).
Proof.
  intros Htok H. unfold Part001.callback in H.
  sym H; rewrite ?Htok in *; simplify_eq/=; auto.
Qed.

Lemma Index_token_failure e code state w r w' b :
  token_res e = Resp false b ->
  run (Index.callback e code state) w = (r, w') ->
  calls w' = calls w \/
  (calls w' = calls w ++ [CallToken (or_empty code)] /\ r = Ok (Redirect ErrorPage)).
Proof.
  intros Htok H. unfold Index.callback in H.
  sym H; rewrite ?Htok in *; simplify_eq/=; auto.
Qed.

(** [part_001]'s [/start] refuses a ticket older than [maxAgeMs]. *)
Lemma Part001_start_rejects_expired cfg e state w t r w' :
  states w !! or_empty state = Some t ->
  now e - createdAt t > Part001.maxAgeMs ->
  run (Part001.start cfg e state) w = (r, w') ->
  forall ps, r <> Ok (Redirect (Authorize ps)).
Proof.
  intros Ht Hage H. unfold Part001.start in H.
  sym H; intros ps; try discriminate.
  rewrite Ht in *. simplify_eq.
  match goal with Hb : _ || _ = false |- _ => apply orb_false_iff in Hb as [_ Hfresh] end.
  rewrite Z.gtb_ltb, Z.ltb_ge in Hfresh. lia.
Qed.

(** ** Claims *)

(** C1 (amended). For [part_000] and [part_001], with requests run one
    at a time: a callback whose ticket is missing or already used leaves the
    world unchanged and issues no credential; any callback either leaves
    the tickets as they were or turns one unused ticket into a used one,
    and only in a run where the token exchange, the identity fetch and the
    user write completed; after a callback that issued a credential the
    ticket is used, so no later callback on it issues one. *)
Theorem callback_consumes_ticket_once :
  (forall e code state w r w',
     ticket_usable (states w !! or_empty state) = false ->
     run (Part000.callback e code state) w = (r, w') ->
     w' = w /\ is_success r = false) /\
  (forall e code state w r w',
     ticket_usable (states w !! or_empty state) = false ->
     run (Part001.callback e code state) w = (r, w') ->
     w' = w /\ is_success r = false) /\
  (forall e code state w r w',
     run (Part000.callback e code state) w = (r, w') ->
     states w' = states w \/
     exists t tk me uid w1,
       states w !! or_empty state = Some t /\ used t = false /\
       states w' = <[or_empty state := mkTicket true (createdAt t)]> (states w) /\
       (exists ok, token_res e = Resp ok (Some tk)) /\
       (exists ok, me_res e (access_token tk) = Resp ok (Some me)) /\
       run (Part000.reconcile_user e me)
           (log (CallIdentity (access_token tk)) (log (CallToken (or_empty code)) w))
         = (Ok uid, w1)) /\
  (forall e code state w r w',
     run (Part001.callback e code state) w = (r, w') ->
     states w' = states w \/
     exists t tk me uid w1,
       states w !! or_empty state = Some t /\ used t = false /\
       states w' = <[or_empty state := mkTicket true (createdAt t)]> (states w) /\
       token_res e = Resp true (Some tk) /\ me_res e (access_token tk) = Resp true (Some me) /\
       run (Part001.reconcile_user e (js_String (me_id me)) (me_username me)
              (avatar_url (js_String (me_id me)) (me_avatar me)))
           (log (CallIdentity (access_token tk)) (log (CallToken (or_empty code)) w))
         = (Ok uid, w1)) /\
  (forall e code state w c w',
     run (Part000.callback e code state) w = (Ok (Redirect (SuccessPage c)), w') ->
     ticket_usable (states w !! or_empty state) = true /\
     ticket_usable (states w' !! or_empty state) = false /\
     forall e' code' r2 w2,
       run (Part000.callback e' code' state) w' = (r2, w2) -> is_success r2 = false) /\
  (forall e code state w c w',
     run (Part001.callback e code state) w = (Ok (Redirect (SuccessPage c)), w') ->
     ticket_usable (states w !! or_empty state) = true /\
     ticket_usable (states w' !! or_empty state) = false /\
     forall e' code' r2 w2,
       run (Part001.callback e' code' state) w' = (r2, w2) -> is_success r2 = false).
Proof.
  split_and!.
  - apply Part000_callback_stale.
  - apply Part001_callback_stale.
  - apply Part000_callback_states.
  - apply Part001_callback_states.
  - intros e code state w c w' H.
    destruct (Part000_callback_success _ _ _ _ _ _ H)
      as (t & tk & me & w1 & Ht & Hu & _ & _ & _ & Hs & _).
    assert (Hst : ticket_usable (states w' !! or_empty state) = false).
    { eapply ticket_usable_used; [rewrite Hs; apply lookup_insert_eq | done]. }
    split_and!; [rewrite Ht; simpl; by rewrite Hu | exact Hst |].
    intros e' code' r2 w2 H2. apply (Part000_callback_stale _ _ _ _ _ _ Hst H2).
  - intros e code state w c w' H.
    destruct (Part001_callback_success _ _ _ _ _ _ H)
      as (t & tk & me & w1 & Ht & Hu & _ & _ & _ & Hs & _).
    assert (Hst : ticket_usable (states w' !! or_empty state) = false).
    { eapply ticket_usable_used; [rewrite Hs; apply lookup_insert_eq | done]. }
    split_and!; [rewrite Ht; simpl; by rewrite Hu | exact Hst |].
    intros e' code' r2 w2 H2. apply (Part001_callback_stale _ _ _ _ _ _ Hst H2).
Qed.

Lemma callback_consumes_ticket_once_witness :
  (ticket_usable (states w_demo !! or_empty (Some "T9")) = false /\
   snd (run (Part000.callback env_ok (Some "c") (Some "T9")) w_demo) = w_demo /\ is_success (fst (run (Part000.callback env_ok (Some "c") (Some "T9")) w_demo)) = false) /\
  (ticket_usable (states w_demo !! or_empty (Some "T9")) = false /\
   snd (run (Part001.callback env_ok (Some "c") (Some "T9")) w_demo) = w_demo /\ is_success (fst (run (Part001.callback env_ok (Some "c") (Some "T9")) w_demo)) = false) /\
  (states (snd (run (Part000.callback env_ok (Some "c") (Some "T1")) w_demo)) = states w_demo \/
   exists t tk me uid w1,
     states w_demo !! or_empty (Some "T1") = Some t /\ used t = false /\
     states (snd (run (Part000.callback env_ok (Some "c") (Some "T1")) w_demo)) = <[or_empty (Some "T1") := mkTicket true (createdAt t)]> (states w_demo) /\
     (exists ok, token_res env_ok = Resp ok (Some tk)) /\
     (exists ok, me_res env_ok (access_token tk) = Resp ok (Some me)) /\
     run (Part000.reconcile_user env_ok me) (log (CallIdentity (access_token tk)) (log (CallToken (or_empty (Some "c"))) w_demo)) = (Ok uid, w1)) /\
  (states (snd (run (Part001.callback env_ok (Some "c") (Some "T1")) w_demo)) = states w_demo \/
   exists t tk me uid w1,
     states w_demo !! or_empty (Some "T1") = Some t /\ used t = false /\
     states (snd (run (Part001.callback env_ok (Some "c") (Some "T1")) w_demo)) = <[or_empty (Some "T1") := mkTicket true (createdAt t)]> (states w_demo) /\
     token_res env_ok = Resp true (Some tk) /\
     me_res env_ok (access_token tk) = Resp true (Some me) /\
     run (Part001.reconcile_user env_ok (js_String (me_id me)) (me_username me)
            (avatar_url (js_String (me_id me)) (me_avatar me))) (log (CallIdentity (access_token tk)) (log (CallToken (or_empty (Some "c"))) w_demo)) = (Ok uid, w1)) /\
  (fst (run (Part000.callback env_ok (Some "c") (Some "T1")) w_demo) = Ok (Redirect (SuccessPage (mkCred "newUserDoc" []))) /\
   ticket_usable (states w_demo !! or_empty (Some "T1")) = true /\
   ticket_usable (states (snd (run (Part000.callback env_ok (Some "c") (Some "T1")) w_demo)) !! or_empty (Some "T1")) = false /\
   forall e' code' r2 w2,
     run (Part000.callback e' code' (Some "T1")) (snd (run (Part000.callback env_ok (Some "c") (Some "T1")) w_demo)) = (r2, w2) -> is_success r2 = false) /\
  (fst (run (Part001.callback env_ok (Some "c") (Some "T1")) w_demo) = Ok (Redirect (SuccessPage (mkCred "newUserDoc" [("discordId", alice_id)]))) /\
   ticket_usable (states w_demo !! or_empty (Some "T1")) = true /\
   ticket_usable (states (snd (run (Part001.callback env_ok (Some "c") (Some "T1")) w_demo)) !! or_empty (Some "T1")) = false /\
   forall e' code' r2 w2,
     run (Part001.callback e' code' (Some "T1")) (snd (run (Part001.callback env_ok (Some "c") (Some "T1")) w_demo)) = (r2, w2) -> is_success r2 = false).
Proof.
  pose proof callback_consumes_ticket_once as (H1 & H2 & H3 & H4 & H5 & H6).
  refine (conj _ (conj _ (conj _ (conj _ (conj _ _))))).
  - split; [vm_compute; reflexivity|].
    apply (H1 env_ok (Some "c") (Some "T9") w_demo (fst (run (Part000.callback env_ok (Some "c") (Some "T9")) w_demo)) (snd (run (Part000.callback env_ok (Some "c") (Some "T9")) w_demo)));
      vm_compute; reflexivity.
  - split; [vm_compute; reflexivity|].
    apply (H2 env_ok (Some "c") (Some "T9") w_demo (fst (run (Part001.callback env_ok (Some "c") (Some "T9")) w_demo)) (snd (run (Part001.callback env_ok (Some "c") (Some "T9")) w_demo)));
      vm_compute; reflexivity.
  - apply (H3 env_ok (Some "c") (Some "T1") w_demo (fst (run (Part000.callback env_ok (Some "c") (Some "T1")) w_demo)) (snd (run (Part000.callback env_ok (Some "c") (Some "T1")) w_demo))).
    vm_compute; reflexivity.
  - apply (H4 env_ok (Some "c") (Some "T1") w_demo (fst (run (Part001.callback env_ok (Some "c") (Some "T1")) w_demo)) (snd (run (Part001.callback env_ok (Some "c") (Some "T1")) w_demo))).
    vm_compute; reflexivity.
  - split; [vm_compute; reflexivity|].
    apply (H5 env_ok (Some "c") (Some "T1") w_demo (mkCred "newUserDoc" []) (snd (run (Part000.callback env_ok (Some "c") (Some "T1")) w_demo))).
    vm_compute; reflexivity.
  - split; [vm_compute; reflexivity|].
    apply (H6 env_ok (Some "c") (Some "T1") w_demo
             (mkCred "newUserDoc" [("discordId", alice_id)]) (snd (run (Part001.callback env_ok (Some "c") (Some "T1")) w_demo))).
    vm_compute; reflexivity.
Defined.

(** C1: two callbacks on the same unused ticket, interleaved so that both
    read the ticket before either marks it, both issue a credential. *)
Lemma callback_consumes_ticket_once_counterexample :
  (let '(r1, r2, _) :=
     sched_run [true; false] (Part001.callback env_ok (Some "c") (Some "T1"))
               (Part001.callback env_ok (Some "c2") (Some "T1")) w_demo in
   is_success r1 && is_success r2) = true /\
  (let '(r1, r2, _) :=
     sched_run [true; false] (Part000.callback env_ok (Some "c") (Some "T1"))
               (Part000.callback env_ok (Some "c2") (Some "T1")) w_demo in
   is_success r1 && is_success r2) = true.
Proof. split; vm_compute; reflexivity. Qed.

(** C2. On one request whose token exchange answers 401 with no access
    token: [part_000] still calls the identity endpoint (with no bearer
    token) and only then reaches the error page, while [part_001] and
    [index.cjs] stop after the token exchange and redirect to the error
    page. *)
Theorem part000_calls_identity_after_failed_token_exchange :
  token_res env_badtoken = Resp false (Some (mkTokenJson None)) /\
  calls (snd (run (Part000.callback env_badtoken (Some "c") (Some "T1")) w_demo))
    = [CallToken "c"; CallIdentity None] /\
  fst (run (Part000.callback env_badtoken (Some "c") (Some "T1")) w_demo)
    = Ok (Redirect ErrorPage) /\
  calls (snd (run (Part001.callback env_badtoken (Some "c") (Some "T1")) w_demo))
    = [CallToken "c"] /\
  fst (run (Part001.callback env_badtoken (Some "c") (Some "T1")) w_demo)
    = Ok (Redirect ErrorPage) /\
  calls (snd (run (Index.callback env_badtoken (Some "c") (Some alice_id)) w_demo))
    = [CallToken "c"] /\
  fst (run (Index.callback env_badtoken (Some "c") (Some alice_id)) w_demo)
    = Ok (Redirect ErrorPage).
Proof. split_and!; vm_compute; reflexivity. Qed.

(** C3 (amended). After a [part_001] callback that issued a credential
    for the identity with id [E] (the fetched [String(me.id)]), the claims
    are [{discordId: E}], and the entry [discordLinks/E] names the
    credential's user when the mapping write succeeded; when it failed the
    mapping is unchanged and the credential is issued all the same. After
    an [index.cjs] callback that issued a credential, the entry under the
    key [K] (the state when it is a well-formed id, the fetched id
    otherwise) names the credential's user and the claims are
    [{discordId: K}]; [K] is the fetched id when the state is not
    well formed. *)
Theorem mapping_entry_matches_credential :
  (forall e code state w c w',
     run (Part001.callback e code state) w = (Ok (Redirect (SuccessPage c)), w') ->
     exists tk me,
       token_res e = Resp true (Some tk) /\ me_res e (access_token tk) = Resp true (Some me) /\
       cred_claims c = [("discordId", js_String (me_id me))] /\
       (fails e SetLink = false ->
          links w' !! js_String (me_id me) = Some (mkLink (cred_uid c) (now e))) /\
       (fails e SetLink = true -> links w' = links w)) /\
  (forall e code state w c w',
     run (Index.callback e code state) w = (Ok (Redirect (SuccessPage c)), w') ->
     exists tk me,
       token_res e = Resp true (Some tk) /\ me_res e (access_token tk) = Resp true (Some me) /\
       cred_claims c = [("discordId", Index.mapping_key state (me_id me))] /\
       links w' !! Index.mapping_key state (me_id me) = Some (mkLink (cred_uid c) (now e)) /\
       (is_snowflake (trim (or_empty state)) = false ->
          me_id me = Some (Index.mapping_key state (me_id me)))).
Proof.
  split.
  - intros e code state w c w' H.
    destruct (Part001_callback_success _ _ _ _ _ _ H)
      as (t & tk & me & w1 & _ & _ & Htk & Hme & _ & _ & _ & Hl & Hc).
    exists tk, me. split_and!; auto; intros Hf; rewrite Hl, Hf; [apply lookup_insert_eq | done].
  - intros e code state w c w' H.
    destruct (Index_callback_success _ _ _ _ _ _ H)
      as (tk & me & w1 & Htk & Hme & _ & Hsn & _ & _ & Hl & _ & Hc).
    exists tk, me. split_and!; auto; [rewrite Hl; apply lookup_insert_eq|].
    intros Hst. revert Hsn. unfold Index.mapping_key. rewrite Hst.
    apply or_empty_snowflake; reflexivity.
Qed.

Lemma mapping_entry_matches_credential_witness :
  (fst (run (Part001.callback env_ok (Some "c") (Some "T1")) w_demo) = Ok (Redirect (SuccessPage (mkCred "newUserDoc" [("discordId", alice_id)]))) /\
   exists tk me,
     token_res env_ok = Resp true (Some tk) /\
     me_res env_ok (access_token tk) = Resp true (Some me) /\
     cred_claims (mkCred "newUserDoc" [("discordId", alice_id)]) = [("discordId", js_String (me_id me))] /\
     (fails env_ok SetLink = false ->
        links (snd (run (Part001.callback env_ok (Some "c") (Some "T1")) w_demo)) !! js_String (me_id me) = Some (mkLink (cred_uid (mkCred "newUserDoc" [("discordId", alice_id)])) (now env_ok))) /\
     (fails env_ok SetLink = true -> links (snd (run (Part001.callback env_ok (Some "c") (Some "T1")) w_demo)) = links w_demo)) /\
  (fst (run (Index.callback env_ok (Some "c") (Some alice_id)) w_demo) = Ok (Redirect (SuccessPage (mkCred "newUserDoc" [("discordId", alice_id)]))) /\
   exists tk me,
     token_res env_ok = Resp true (Some tk) /\
     me_res env_ok (access_token tk) = Resp true (Some me) /\
     cred_claims (mkCred "newUserDoc" [("discordId", alice_id)]) = [("discordId", Index.mapping_key (Some alice_id) (me_id me))] /\
     links (snd (run (Index.callback env_ok (Some "c") (Some alice_id)) w_demo)) !! Index.mapping_key (Some alice_id) (me_id me)
       = Some (mkLink (cred_uid (mkCred "newUserDoc" [("discordId", alice_id)])) (now env_ok)) /\
     (is_snowflake (trim (or_empty (Some alice_id))) = false ->
        me_id me = Some (Index.mapping_key (Some alice_id) (me_id me)))).
Proof.
  split.
  - split; [vm_compute; reflexivity|].
    apply (proj1 mapping_entry_matches_credential env_ok (Some "c") (Some "T1") w_demo
             (mkCred "newUserDoc" [("discordId", alice_id)]) (snd (run (Part001.callback env_ok (Some "c") (Some "T1")) w_demo))).
    vm_compute; reflexivity.
  - split; [vm_compute; reflexivity|].
    apply (proj2 mapping_entry_matches_credential env_ok (Some "c") (Some alice_id) w_demo
             (mkCred "newUserDoc" [("discordId", alice_id)]) (snd (run (Index.callback env_ok (Some "c") (Some alice_id)) w_demo))).
    vm_compute; reflexivity.
Defined.

(** C3: with a well-formed state [other_id] that is not the fetched id,
    [index.cjs] issues a credential while [discordLinks/alice_id] stays
    empty; in [part_001] a rejected mapping write leaves it empty too. *)
Lemma mapping_entry_matches_credential_counterexample :
  me_id alice = Some alice_id /\
  is_success (fst (run (Index.callback env_ok (Some "c") (Some other_id)) w_demo)) = true /\
  links (snd (run (Index.callback env_ok (Some "c") (Some other_id)) w_demo)) !! alice_id = None /\
  is_success (fst (run (Part001.callback env_nolink (Some "c") (Some "T1")) w_demo)) = true /\
  links (snd (run (Part001.callback env_nolink (Some "c") (Some "T1")) w_demo)) !! alice_id = None.
Proof. split_and!; vm_compute; reflexivity. Qed.


(** C4. Reconciling an external identity whose id [E] already matches a
    user document [id] keeps that document: the set of user documents is
    unchanged, and when the reconcile completes it returns [id] and that
    document now carries the mirrored fields ([discordId],
    [discordUsername], [discordAvatarURL]). Stated for the find-or-create
    of [part_001] (also the one of [index.cjs]) and for that of [part_000]. *)
Theorem reconcile_existing_user_updates_in_place :
  (forall e E un av w id r w',
     find_user (users w) (VStr E) = Some id ->
     run (Part001.reconcile_user e E un av) w = (r, w') ->
     dom (users w') = dom (users w) /\
     forall uid, r = Ok uid ->
       uid = id /\
       exists d', users w' !! id = Some d' /\
         d' !! "discordId" = Some (VStr E) /\
         d' !! "discordUsername" = VStr <$> un /\
         d' !! "discordAvatarURL" = Some av) /\
  (forall e me E w id r w',
     me_id me = Some E ->
     find_user (users w) (VStr E) = Some id ->
     run (Part000.reconcile_user e me) w = (r, w') ->
     dom (users w') = dom (users w) /\
     forall uid, r = Ok uid ->
       uid = id /\
       exists d', users w' !! id = Some d' /\
         d' !! "discordId" = Some (VStr E) /\
         d' !! "discordUsername" =
           Some (VStr (js_String (me_username me) ++ "#" ++ js_String (me_discriminator me))) /\
         d' !! "discordAvatarURL" = Some (avatar_url E (me_avatar me))).
Proof.
  split.
  - intros e E un av w id r w' Hf H.
    destruct (Part001_reconcile_found _ _ _ _ _ _ _ _ Hf H)
      as [[-> ->] | (d & u & Hd & -> & -> & ->)].
    + split; [done | discriminate].
    + simpl. split; [apply dom_insert_present; eauto|].
      intros uid [= <-]. split; [done|].
      eexists; split_and!; [apply lookup_insert_eq|..]; simpl; by simplify_map_eq.
  - intros e me E w id r w' Hid Hf H.
    destruct (Part000_reconcile_found _ _ _ _ _ _ _ Hid Hf H)
      as [[-> ->] | (d & Hd & -> & ->)].
    + split; [done | discriminate].
    + simpl. split; [apply dom_insert_present; eauto|].
      intros uid [= <-]. split; [done|].
      eexists; split_and!; [apply lookup_insert_eq|..]; simpl; by simplify_map_eq.
Qed.

Lemma reconcile_existing_user_updates_in_place_witness :
  (find_user (users w_known) (VStr alice_id) = Some "u1" /\
   dom (users (snd (run (Part001.reconcile_user env_ok alice_id (Some "alice") VNull) w_known)))
     = dom (users w_known) /\
   forall uid, fst (run (Part001.reconcile_user env_ok alice_id (Some "alice") VNull) w_known) = Ok uid ->
     uid = "u1" /\
     exists d', users (snd (run (Part001.reconcile_user env_ok alice_id (Some "alice") VNull) w_known))
                  !! "u1" = Some d' /\
       d' !! "discordId" = Some (VStr alice_id) /\
       d' !! "discordUsername" = VStr <$> Some "alice" /\
       d' !! "discordAvatarURL" = Some VNull) /\
  (me_id alice = Some alice_id /\
   find_user (users w_known) (VStr alice_id) = Some "u1" /\
   dom (users (snd (run (Part000.reconcile_user env_ok alice) w_known))) = dom (users w_known) /\
   forall uid, fst (run (Part000.reconcile_user env_ok alice) w_known) = Ok uid ->
     uid = "u1" /\
     exists d', users (snd (run (Part000.reconcile_user env_ok alice) w_known)) !! "u1" = Some d' /\
       d' !! "discordId" = Some (VStr alice_id) /\
       d' !! "discordUsername" =
         Some (VStr (js_String (me_username alice) ++ "#" ++ js_String (me_discriminator alice))) /\
       d' !! "discordAvatarURL" = Some (avatar_url alice_id (me_avatar alice))).
Proof.
  split.
  - split; [vm_compute; reflexivity|].
    apply (proj1 reconcile_existing_user_updates_in_place env_ok);
      [vm_compute; reflexivity | apply surjective_pairing].
  - split; [vm_compute; reflexivity|]. split; [vm_compute; reflexivity|].
    apply (proj2 reconcile_existing_user_updates_in_place env_ok);
      [vm_compute; reflexivity | vm_compute; reflexivity | apply surjective_pairing].
Defined.

(** C9. When reconciling an identity that matches the user document [id]
    completes, every field of that document other than [discordId],
    [discordUsername] and [discordAvatarURL] keeps its value, and every
    other user document is unchanged ([part_001]/[index.cjs] and
    [part_000]). *)
Theorem reconcile_existing_user_keeps_other_fields :
  (forall e E un av w id uid w',
     find_user (users w) (VStr E) = Some id ->
     run (Part001.reconcile_user e E un av) w = (Ok uid, w') ->
     exists d d', users w !! id = Some d /\ users w' !! id = Some d' /\
       (forall f, f <> "discordId" -> f <> "discordUsername" -> f <> "discordAvatarURL" ->
          d' !! f = d !! f) /\
       (forall k, k <> id -> users w' !! k = users w !! k)) /\
  (forall e me E w id uid w',
     me_id me = Some E ->
     find_user (users w) (VStr E) = Some id ->
     run (Part000.reconcile_user e me) w = (Ok uid, w') ->
     exists d d', users w !! id = Some d /\ users w' !! id = Some d' /\
       (forall f, f <> "discordId" -> f <> "discordUsername" -> f <> "discordAvatarURL" ->
          d' !! f = d !! f) /\
       (forall k, k <> id -> users w' !! k = users w !! k)).
Proof.
  split.
  - intros e E un av w id uid w' Hf H.
    destruct (Part001_reconcile_found _ _ _ _ _ _ _ _ Hf H)
      as [[_ ?] | (d & u & Hd & -> & _ & ->)]; [discriminate|].
    exists d. eexists. simpl. split_and!; [done | apply lookup_insert_eq | |].
    + intros f ???. by rewrite !lookup_insert_ne.
    + intros k ?. by rewrite lookup_insert_ne.
  - intros e me E w id uid w' Hid Hf H.
    destruct (Part000_reconcile_found _ _ _ _ _ _ _ Hid Hf H)
      as [[_ ?] | (d & Hd & _ & ->)]; [discriminate|].
    exists d. eexists. simpl. split_and!; [done | apply lookup_insert_eq | |].
    + intros f ???. by rewrite !lookup_insert_ne.
    + intros k ?. by rewrite lookup_insert_ne.
Qed.

Lemma reconcile_existing_user_keeps_other_fields_witness :
  (find_user (users w_known) (VStr alice_id) = Some "u1" /\
   run (Part001.reconcile_user env_ok alice_id (Some "alice") VNull) w_known
     = (Ok "u1", snd (run (Part001.reconcile_user env_ok alice_id (Some "alice") VNull) w_known)) /\
   exists d d', users w_known !! "u1" = Some d /\
     users (snd (run (Part001.reconcile_user env_ok alice_id (Some "alice") VNull) w_known))
       !! "u1" = Some d' /\
     (forall f, f <> "discordId" -> f <> "discordUsername" -> f <> "discordAvatarURL" ->
        d' !! f = d !! f) /\
     (forall k, k <> "u1" ->
        users (snd (run (Part001.reconcile_user env_ok alice_id (Some "alice") VNull) w_known))
          !! k = users w_known !! k)) /\
  (me_id alice = Some alice_id /\
   find_user (users w_known) (VStr alice_id) = Some "u1" /\
   run (Part000.reconcile_user env_ok alice) w_known
     = (Ok "u1", snd (run (Part000.reconcile_user env_ok alice) w_known)) /\
   exists d d', users w_known !! "u1" = Some d /\
     users (snd (run (Part000.reconcile_user env_ok alice) w_known)) !! "u1" = Some d' /\
     (forall f, f <> "discordId" -> f <> "discordUsername" -> f <> "discordAvatarURL" ->
        d' !! f = d !! f) /\
     (forall k, k <> "u1" ->
        users (snd (run (Part000.reconcile_user env_ok alice) w_known)) !! k = users w_known !! k)).
Proof.
  split.
  - split; [vm_compute; reflexivity|]. split; [vm_compute; reflexivity|].
    apply (proj1 reconcile_existing_user_keeps_other_fields env_ok alice_id (Some "alice") VNull
             w_known "u1" "u1"); vm_compute; reflexivity.
  - split; [vm_compute; reflexivity|]. split; [vm_compute; reflexivity|].
    split; [vm_compute; reflexivity|].
    apply (proj2 reconcile_existing_user_keeps_other_fields env_ok alice alice_id
             w_known "u1" "u1"); vm_compute; reflexivity.
Defined.

(** C5 (amended). A callback that issues a credential for an identity
    whose id [E] matches no user document, with a fresh document id,
    creates exactly one user document, under that id: the credential's
    user, carrying [discordId = E] and the other mirrored fields, every
    other document unchanged. The mapping store: [part_000] writes none;
    [part_001] writes the one entry [E -> new id] only when that write
    succeeds; [index.cjs] writes the one entry under its mapping key (the
    state when well formed, [E] otherwise). *)
Theorem new_identity_creates_one_record :
  (forall e code state w tk ok me ok' E c w',
     token_res e = Resp ok (Some tk) -> me_res e (access_token tk) = Resp ok' (Some me) ->
     me_id me = Some E ->
     find_user (users w) (VStr E) = None -> users w !! fresh_id e = None ->
     run (Part000.callback e code state) w = (Ok (Redirect (SuccessPage c)), w') ->
     cred_uid c = fresh_id e /\
     dom (users w') = {[fresh_id e]} ∪ dom (users w) /\
     (forall k, k <> fresh_id e -> users w' !! k = users w !! k) /\
     (exists d, users w' !! fresh_id e = Some d /\
        d !! "discordId" = Some (VStr E) /\
        d !! "discordUsername" = Some (VStr (js_String (me_username me) ++ "#"
                                             ++ js_String (me_discriminator me))) /\
        d !! "discordAvatarURL" = Some (avatar_url E (me_avatar me))) /\
     links w' = links w) /\
  (forall e code state w tk me c w',
     token_res e = Resp true (Some tk) -> me_res e (access_token tk) = Resp true (Some me) ->
     find_user (users w) (VStr (js_String (me_id me))) = None -> users w !! fresh_id e = None ->
     run (Part001.callback e code state) w = (Ok (Redirect (SuccessPage c)), w') ->
     cred_uid c = fresh_id e /\
     dom (users w') = {[fresh_id e]} ∪ dom (users w) /\
     (forall k, k <> fresh_id e -> users w' !! k = users w !! k) /\
     (exists d, users w' !! fresh_id e = Some d /\
        d !! "discordId" = Some (VStr (js_String (me_id me))) /\
        d !! "discordUsername" = VStr <$> me_username me /\
        d !! "discordAvatarURL" =
          Some (avatar_url (js_String (me_id me)) (me_avatar me))) /\
     links w' = (if fails e SetLink then links w
                 else <[js_String (me_id me) := mkLink (fresh_id e) (now e)]> (links w))) /\
  (forall e code state w tk me c w',
     token_res e = Resp true (Some tk) -> me_res e (access_token tk) = Resp true (Some me) ->
     find_user (users w) (VStr (js_String (me_id me))) = None -> users w !! fresh_id e = None ->
     run (Index.callback e code state) w = (Ok (Redirect (SuccessPage c)), w') ->
     cred_uid c = fresh_id e /\
     dom (users w') = {[fresh_id e]} ∪ dom (users w) /\
     (forall k, k <> fresh_id e -> users w' !! k = users w !! k) /\
     (exists d, users w' !! fresh_id e = Some d /\
        d !! "discordId" = Some (VStr (js_String (me_id me))) /\
        d !! "discordUsername" = VStr <$> me_username me /\
        d !! "discordAvatarURL" =
          Some (avatar_url (js_String (me_id me)) (me_avatar me))) /\
     links w' = <[Index.mapping_key state (me_id me) := mkLink (fresh_id e) (now e)]> (links w)).
Proof.
  split_and!.
  - intros e code state w tk ok me ok' E c w' Htk Hme HE Hf Hfresh H.
    destruct (Part000_callback_success _ _ _ _ _ _ H)
      as (t & tk' & me' & w1 & _ & _ & [ok1 Htk'] & [ok1' Hme'] & Hrec & _ & Hu & Hl & _).
    rewrite Htk in Htk'. simplify_eq. rewrite Hme in Hme'. simplify_eq.
    destruct (Part000_reconcile_new e me' E
                (log (CallIdentity (access_token tk')) (log (CallToken (or_empty code)) w))
                _ _ HE Hf Hrec) as [Hc ->].
    simpl in Hu. rewrite Hfresh in Hu. simpl in Hu.
    split_and!; auto.
    + rewrite Hu. apply dom_insert_L.
    + intros k Hk. rewrite Hu. by apply lookup_insert_ne.
    + eexists; split; [rewrite Hu; apply lookup_insert_eq|]. simpl. by simplify_map_eq.
  - intros e code state w tk me c w' Htk Hme Hf Hfresh H.
    destruct (Part001_callback_success _ _ _ _ _ _ H)
      as (t & tk' & me' & w1 & _ & _ & Htk' & Hme' & Hrec & _ & Hu & Hl & _).
    rewrite Htk in Htk'. simplify_eq. rewrite Hme in Hme'. simplify_eq.
    destruct (Part001_reconcile_new e _ _ _
                (log (CallIdentity (access_token tk')) (log (CallToken (or_empty code)) w))
                _ _ Hf Hrec) as (u & Hun & Hc & ->).
    rewrite Hc in Hl. simpl in Hu.
    split_and!; auto.
    + rewrite Hu. apply dom_insert_L.
    + intros k Hk. rewrite Hu. by apply lookup_insert_ne.
    + eexists; split; [rewrite Hu; apply lookup_insert_eq|]. rewrite Hun. simpl.
      by simplify_map_eq.
  - intros e code state w tk me c w' Htk Hme Hf Hfresh H.
    destruct (Index_callback_success _ _ _ _ _ _ H)
      as (tk' & me' & w1 & Htk' & Hme' & Hrec & _ & _ & Hu & Hl & _ & _).
    rewrite Htk in Htk'. simplify_eq. rewrite Hme in Hme'. simplify_eq.
    destruct (Part001_reconcile_new e _ _ _
                (log (CallIdentity (access_token tk')) (log (CallToken (or_empty code)) w))
                _ _ Hf Hrec) as (u & Hun & Hc & ->).
    rewrite Hc in Hl. simpl in Hu.
    split_and!; auto.
    + rewrite Hu. apply dom_insert_L.
    + intros k Hk. rewrite Hu. by apply lookup_insert_ne.
    + eexists; split; [rewrite Hu; apply lookup_insert_eq|]. rewrite Hun. simpl.
      by simplify_map_eq.
Qed.

Lemma new_identity_creates_one_record_witness :
  (token_res env_ok = Resp true (Some (mkTokenJson (Some "tok"))) /\
   me_res env_ok (access_token (mkTokenJson (Some "tok"))) = Resp true (Some alice) /\
   me_id alice = Some alice_id /\
   find_user (users w_demo) (VStr alice_id) = None /\ users w_demo !! fresh_id env_ok = None /\
   fst (run (Part000.callback env_ok (Some "c") (Some "T1")) w_demo) = Ok (Redirect (SuccessPage (mkCred "newUserDoc" []))) /\
   cred_uid (mkCred "newUserDoc" []) = fresh_id env_ok /\
   dom (users (snd (run (Part000.callback env_ok (Some "c") (Some "T1")) w_demo))) = {[fresh_id env_ok]} ∪ dom (users w_demo) /\
   (forall k, k <> fresh_id env_ok -> users (snd (run (Part000.callback env_ok (Some "c") (Some "T1")) w_demo)) !! k = users w_demo !! k) /\
   (exists d, users (snd (run (Part000.callback env_ok (Some "c") (Some "T1")) w_demo)) !! fresh_id env_ok = Some d /\
      d !! "discordId" = Some (VStr alice_id) /\
      d !! "discordUsername" = Some (VStr (js_String (me_username alice) ++ "#"
                                           ++ js_String (me_discriminator alice))) /\
      d !! "discordAvatarURL" = Some (avatar_url alice_id (me_avatar alice))) /\
   links (snd (run (Part000.callback env_ok (Some "c") (Some "T1")) w_demo)) = links w_demo) /\
  (token_res env_ok = Resp true (Some (mkTokenJson (Some "tok"))) /\
   me_res env_ok (access_token (mkTokenJson (Some "tok"))) = Resp true (Some alice) /\
   find_user (users w_demo) (VStr (js_String (me_id alice))) = None /\
   users w_demo !! fresh_id env_ok = None /\
   fst (run (Part001.callback env_ok (Some "c") (Some "T1")) w_demo) = Ok (Redirect (SuccessPage (mkCred "newUserDoc" [("discordId", alice_id)]))) /\
   cred_uid (mkCred "newUserDoc" [("discordId", alice_id)]) = fresh_id env_ok /\
   dom (users (snd (run (Part001.callback env_ok (Some "c") (Some "T1")) w_demo))) = {[fresh_id env_ok]} ∪ dom (users w_demo) /\
   (forall k, k <> fresh_id env_ok -> users (snd (run (Part001.callback env_ok (Some "c") (Some "T1")) w_demo)) !! k = users w_demo !! k) /\
   (exists d, users (snd (run (Part001.callback env_ok (Some "c") (Some "T1")) w_demo)) !! fresh_id env_ok = Some d /\
      d !! "discordId" = Some (VStr (js_String (me_id alice))) /\
      d !! "discordUsername" = VStr <$> me_username alice /\
      d !! "discordAvatarURL" = Some (avatar_url (js_String (me_id alice)) (me_avatar alice))) /\
   links (snd (run (Part001.callback env_ok (Some "c") (Some "T1")) w_demo)) = (if fails env_ok SetLink then links w_demo
                       else <[js_String (me_id alice) := mkLink (fresh_id env_ok) (now env_ok)]>
                              (links w_demo))) /\
  (token_res env_ok = Resp true (Some (mkTokenJson (Some "tok"))) /\
   me_res env_ok (access_token (mkTokenJson (Some "tok"))) = Resp true (Some alice) /\
   find_user (users w_demo) (VStr (js_String (me_id alice))) = None /\
   users w_demo !! fresh_id env_ok = None /\
   fst (run (Index.callback env_ok (Some "c") (Some alice_id)) w_demo) = Ok (Redirect (SuccessPage (mkCred "newUserDoc" [("discordId", alice_id)]))) /\
   cred_uid (mkCred "newUserDoc" [("discordId", alice_id)]) = fresh_id env_ok /\
   dom (users (snd (run (Index.callback env_ok (Some "c") (Some alice_id)) w_demo))) = {[fresh_id env_ok]} ∪ dom (users w_demo) /\
   (forall k, k <> fresh_id env_ok -> users (snd (run (Index.callback env_ok (Some "c") (Some alice_id)) w_demo)) !! k = users w_demo !! k) /\
   (exists d, users (snd (run (Index.callback env_ok (Some "c") (Some alice_id)) w_demo)) !! fresh_id env_ok = Some d /\
      d !! "discordId" = Some (VStr (js_String (me_id alice))) /\
      d !! "discordUsername" = VStr <$> me_username alice /\
      d !! "discordAvatarURL" = Some (avatar_url (js_String (me_id alice)) (me_avatar alice))) /\
   links (snd (run (Index.callback env_ok (Some "c") (Some alice_id)) w_demo)) = <[Index.mapping_key (Some alice_id) (me_id alice)
                          := mkLink (fresh_id env_ok) (now env_ok)]> (links w_demo)).
Proof.
  pose proof new_identity_creates_one_record as (H0 & H1 & H2).
  refine (conj _ (conj _ _)).
  - do 6 (split; [vm_compute; reflexivity|]).
    apply (H0 env_ok (Some "c") (Some "T1") w_demo (mkTokenJson (Some "tok")) true alice true alice_id (mkCred "newUserDoc" [])
             (snd (run (Part000.callback env_ok (Some "c") (Some "T1")) w_demo))); vm_compute; reflexivity.
  - do 5 (split; [vm_compute; reflexivity|]).
    apply (H1 env_ok (Some "c") (Some "T1") w_demo (mkTokenJson (Some "tok")) alice (mkCred "newUserDoc" [("discordId", alice_id)]) (snd (run (Part001.callback env_ok (Some "c") (Some "T1")) w_demo)));
      vm_compute; reflexivity.
  - do 5 (split; [vm_compute; reflexivity|]).
    apply (H2 env_ok (Some "c") (Some alice_id) w_demo (mkTokenJson (Some "tok")) alice (mkCred "newUserDoc" [("discordId", alice_id)]) (snd (run (Index.callback env_ok (Some "c") (Some alice_id)) w_demo)));
      vm_compute; reflexivity.
Defined.

(** C5: a new identity linked through [part_000] gets its user document
    and no mapping entry at all; through [part_001] with a rejected
    mapping write, the same. *)
Lemma new_identity_creates_one_record_counterexample :
  find_user (users w_demo) (VStr alice_id) = None /\
  is_success (fst (run (Part000.callback env_ok (Some "c") (Some "T1")) w_demo)) = true /\
  users (snd (run (Part000.callback env_ok (Some "c") (Some "T1")) w_demo)) !! "newUserDoc" <> None /\
  links (snd (run (Part000.callback env_ok (Some "c") (Some "T1")) w_demo)) !! alice_id = None /\
  is_success (fst (run (Part001.callback env_nolink (Some "c") (Some "T1")) w_demo)) = true /\
  users (snd (run (Part001.callback env_nolink (Some "c") (Some "T1")) w_demo)) !! "newUserDoc"
    <> None /\
  links (snd (run (Part001.callback env_nolink (Some "c") (Some "T1")) w_demo)) !! alice_id = None.
Proof. split_and!; vm_compute; first [reflexivity | discriminate]. Qed.

(** C6. The same ticket, unused and created 16 minutes and 40 seconds
    before the request ([now env_ok] is 1 000 000 ms, the ticket's
    [createdAt] is 0): [part_000]'s [/start] redirects to Discord's
    authorize endpoint, while [part_001]'s [/start] refuses it as expired. *)
Theorem part000_start_accepts_expired_ticket :
  states w_demo !! "T1" = Some (mkTicket false 0) /\
  now env_ok - 0 > Part001.maxAgeMs /\
  fst (run (Part000.start cfg_demo env_ok (Some "T1")) w_demo)
    = Ok (Redirect (AuthorizeUrl (Part000.oauthUrl cfg_demo "T1"))) /\
  fst (run (Part001.start cfg_demo env_ok (Some "T1")) w_demo)
    = Ok (Send 400 "State expired or already used").
Proof. split_and!; vm_compute; reflexivity. Qed.








(** C10. In the [index.cjs] callback, with [code] and [state] present and a
    [state] that, once trimmed, is not 17 to 20 digits: the request is not
    refused for it, the token exchange is the first call made; a non
    redirect answer can only be the 400 [Missing discord id], and then
    the fetched id is not well formed either; when a credential is issued
    its key [K] is the fetched id: the claims are [{discordId: K}] and the
    entry [discordLinks/K] names the credential's user. *)
Theorem index_malformed_state_falls_back_to_fetched_id e code state w r w' :
  is_missing code = false -> is_missing state = false ->
  is_snowflake (trim (or_empty state)) = false ->
  run (Index.callback e code state) w = (r, w') ->
  (exists l, calls w' = calls w ++ CallToken (or_empty code) :: l) /\
  (forall st msg, r = Ok (Send st msg) ->
     st = 400 /\ msg = "Missing discord id" /\
     exists tk me, token_res e = Resp true (Some tk) /\
       me_res e (access_token tk) = Resp true (Some me) /\
       is_snowflake (or_empty (me_id me)) = false) /\
  (forall c, r = Ok (Redirect (SuccessPage c)) ->
     exists tk me K, token_res e = Resp true (Some tk) /\
       me_res e (access_token tk) = Resp true (Some me) /\
       me_id me = Some K /\ is_snowflake K = true /\
       cred_claims c = [("discordId", K)] /\
       links w' !! K = Some (mkLink (cred_uid c) (now e))).
Proof.
  intros Hc Hs Hst H. unfold Index.callback in H.
  rewrite Hc, Hs in H. unfold Index.mapping_key in H. rewrite Hst in H.
  sym H; use_frames.
  all: split_and!; [ | intros ?? Heq | intros ? Heq]; simplify_eq.
  all: try (eexists; simpl;
            repeat match goal with Hk : calls _ = _ |- _ => rewrite Hk; clear Hk end;
            rewrite <- ?app_assoc; reflexivity).
  all: repeat match goal with Hb : negb _ = true |- _ => apply negb_true_iff in Hb end.
  all: try (split; [reflexivity|]); try (split; [reflexivity|]).
  - exists t, i. split_and!; [reflexivity | assumption | assumption].
  - exists t, i, (or_empty (me_id i)). split_and!; auto.
    + apply or_empty_snowflake; [reflexivity | assumption].
    + simpl. apply lookup_insert_eq.
Qed.

Lemma index_malformed_state_falls_back_to_fetched_id_witness :
  is_missing (Some "c") = false /\ is_missing (Some "not-an-id") = false /\
  is_snowflake (trim (or_empty (Some "not-an-id"))) = false /\
  fst (run (Index.callback env_ok (Some "c") (Some "not-an-id")) w_demo) = Ok (Redirect (SuccessPage (mkCred "newUserDoc" [("discordId", alice_id)]))) /\
  (exists l, calls (snd (run (Index.callback env_ok (Some "c") (Some "not-an-id")) w_demo)) = calls w_demo ++ CallToken (or_empty (Some "c")) :: l) /\
  (forall st msg, fst (run (Index.callback env_ok (Some "c") (Some "not-an-id")) w_demo) = Ok (Send st msg) ->
     st = 400 /\ msg = "Missing discord id" /\
     exists tk me, token_res env_ok = Resp true (Some tk) /\
       me_res env_ok (access_token tk) = Resp true (Some me) /\
       is_snowflake (or_empty (me_id me)) = false) /\
  (forall c, fst (run (Index.callback env_ok (Some "c") (Some "not-an-id")) w_demo) = Ok (Redirect (SuccessPage c)) ->
     exists tk me K, token_res env_ok = Resp true (Some tk) /\
       me_res env_ok (access_token tk) = Resp true (Some me) /\
       me_id me = Some K /\ is_snowflake K = true /\
       cred_claims c = [("discordId", K)] /\
       links (snd (run (Index.callback env_ok (Some "c") (Some "not-an-id")) w_demo)) !! K = Some (mkLink (cred_uid c) (now env_ok))).
Proof.
  do 4 (split; [vm_compute; reflexivity|]).
  apply (index_malformed_state_falls_back_to_fetched_id env_ok (Some "c") (Some "not-an-id")
           w_demo (fst (run (Index.callback env_ok (Some "c") (Some "not-an-id")) w_demo)) (snd (run (Index.callback env_ok (Some "c") (Some "not-an-id")) w_demo))); vm_compute; reflexivity.
Defined.

(** ** Further properties of the handlers *)

Lemma pct_decode_enc_char c rest :
  pct_decode (enc_char c ++ rest) = cons c <$> pct_decode rest.
Proof. destruct c as [[] [] [] [] [] [] [] []]; reflexivity. Qed.

Lemma list_ascii_of_string_app s1 s2 :
  list_ascii_of_string (s1 ++ s2) = list_ascii_of_string s1 ++ list_ascii_of_string s2.
Proof. induction s1; simpl; f_equal; auto. Qed.

Lemma pct_decode_encode l :
  pct_decode (flat_map enc_char l) = Some l.
Proof. induction l as [|c l IH]; simpl; [done|]. by rewrite pct_decode_enc_char, IH. Qed.

Lemma encodeURIComponent_inj s1 s2 :
  encodeURIComponent s1 = encodeURIComponent s2 -> s1 = s2.
Proof.
  unfold encodeURIComponent. intros H.
  apply (f_equal list_ascii_of_string) in H.
  rewrite !list_ascii_of_string_of_list_ascii in H.
  apply (f_equal pct_decode) in H. rewrite !pct_decode_encode in H.
  simplify_eq. rewrite <- (string_of_list_ascii_of_string s1), <- (string_of_list_ascii_of_string s2).
  by rewrite H.
Qed.

(** Characters that may stand in [loginUrl]. *)

Lemma enc_char_url_chars c : forallb url_char (enc_char c) = true.
Proof. destruct c as [[] [] [] [] [] [] [] []]; reflexivity. Qed.

Lemma loginUrl_url_chars ct t :
  forallb url_char (list_ascii_of_string (LoginPage.loginUrl ct t)) = true.
Proof.
  unfold LoginPage.loginUrl. destruct (is_missing _); [reflexivity|].
  rewrite !list_ascii_of_string_app, !forallb_app. simpl.
  unfold encodeURIComponent. rewrite list_ascii_of_string_of_list_ascii.
  induction (list_ascii_of_string _) as [|c l IH]; [reflexivity|].
  simpl. rewrite forallb_app, enc_char_url_chars. exact IH.
Qed.

(** The link of the success page ([href="${loginUrl}"]) holds no double
    quote, no [<] or [>], no [&] and no white space, whatever the query:
    the token cannot end the attribute, open a tag or add a parameter. *)
Theorem login_link_cannot_leave_href ct t :
  Forall (fun c => c <> dquote /\ c <> "<"%char /\ c <> ">"%char /\ c <> "&"%char /\
                   is_js_space c = false)
         (list_ascii_of_string (LoginPage.loginUrl ct t)).
Proof.
  apply List.Forall_forall. intros c Hin. pose proof (loginUrl_url_chars ct t) as Hall.
  rewrite forallb_forall in Hall. specialize (Hall c Hin).
  destruct c as [[] [] [] [] [] [] [] []]; vm_compute in Hall; try discriminate Hall;
    split_and!; try discriminate; reflexivity.
Qed.

Lemma is_missing_or_empty o : is_missing o = true -> or_empty o = "".
Proof. destruct o as [s|]; simpl; [|done]. by intros ->%String.eqb_eq. Qed.

Lemma string_app_inv_head p s1 s2 : (p ++ s1 = p ++ s2)%string -> s1 = s2.
Proof. induction p; simpl; [done|]. intros H; injection H; auto. Qed.

Lemma string_app_neq p s : s <> ""%string -> (p ++ s)%string <> p.
Proof.
  intros Hs. induction p as [|a p IH]; simpl; [done|].
  intros H. injection H. exact IH.
Qed.

(** Two queries that give the same link chose the same token: the
    percent-encoding loses nothing. *)
Theorem login_link_determines_token ct t ct' t' :
  LoginPage.loginUrl ct t = LoginPage.loginUrl ct' t' ->
  or_empty (LoginPage.chosen_token ct t) = or_empty (LoginPage.chosen_token ct' t').
Proof.
  unfold LoginPage.loginUrl.
  destruct (is_missing (LoginPage.chosen_token ct t)) eqn:H1,
           (is_missing (LoginPage.chosen_token ct' t')) eqn:H2; intros H.
  - by rewrite !is_missing_or_empty.
  - exfalso. symmetry in H. revert H. apply string_app_neq. discriminate.
  - exfalso. revert H. apply string_app_neq. discriminate.
  - apply string_app_inv_head, string_app_inv_head in H.
    by apply encodeURIComponent_inj.
Qed.

Lemma login_link_determines_token_witness :
  LoginPage.loginUrl (Some "") (Some "abc") = LoginPage.loginUrl (Some "abc") None /\
  or_empty (LoginPage.chosen_token (Some "") (Some "abc"))
    = or_empty (LoginPage.chosen_token (Some "abc") None).
Proof.
  split; [vm_compute; reflexivity|].
  apply (login_link_determines_token (Some "") (Some "abc") (Some "abc") None).
  vm_compute; reflexivity.
Defined.

Lemma enc_char_unreserved c : is_unreserved c = true -> enc_char c = [c].
Proof. unfold enc_char. by intros ->. Qed.

(** A token made only of characters [encodeURIComponent] leaves alone
    (a Firebase custom token, a JWT, is one) appears verbatim in the link. *)
Theorem login_link_keeps_url_safe_token ct t tok :
  LoginPage.chosen_token ct t = Some tok -> tok <> ""%string ->
  forallb is_unreserved (list_ascii_of_string tok) = true ->
  LoginPage.loginUrl ct t = (LoginPage.baseLoginUrl ++ "?token=" ++ tok)%string.
Proof.
  intros Hc Hne Hu. unfold LoginPage.loginUrl. rewrite Hc. simpl.
  destruct (String.eqb_spec tok "") as [|_]; [done|]. do 2 f_equal.
  unfold encodeURIComponent.
  rewrite <- (string_of_list_ascii_of_string tok) at 2. f_equal.
  induction (list_ascii_of_string tok) as [|c l IH]; [done|].
  simpl in Hu |- *. apply andb_true_iff in Hu as [Hc' Hl].
  rewrite enc_char_unreserved by done. simpl. f_equal. auto.
Qed.

Lemma login_link_keeps_url_safe_token_witness :
  LoginPage.chosen_token (Some "eyJhbGciOi.eyJ1aWQi.c2ln_-") (Some "old") = Some "eyJhbGciOi.eyJ1aWQi.c2ln_-" /\
  "eyJhbGciOi.eyJ1aWQi.c2ln_-"%string <> ""%string /\
  forallb is_unreserved (list_ascii_of_string "eyJhbGciOi.eyJ1aWQi.c2ln_-") = true /\
  LoginPage.loginUrl (Some "eyJhbGciOi.eyJ1aWQi.c2ln_-") (Some "old")
    = (LoginPage.baseLoginUrl ++ "?token=" ++ "eyJhbGciOi.eyJ1aWQi.c2ln_-")%string.
Proof.
  refine (conj _ (conj _ (conj _ _))); [vm_compute; reflexivity | discriminate | vm_compute; reflexivity |].
  apply login_link_keeps_url_safe_token; [vm_compute; reflexivity | discriminate | vm_compute; reflexivity].
Defined.

(** [/start] writes nothing, in all three versions. *)
Theorem start_handlers_read_only cfg e state w :
  snd (run (Part000.start cfg e state) w) = w /\
  snd (run (Part001.start cfg e state) w) = w /\
  snd (run (Index.start cfg e state) w) = w.
Proof.
  split_and!.
  - destruct (run _ w) as [r w'] eqn:H. unfold Part000.start in H. sym H; reflexivity.
  - destruct (run _ w) as [r w'] eqn:H. unfold Part001.start in H. sym H; reflexivity.
  - destruct (run _ w) as [r w'] eqn:H. unfold Index.start in H. sym H; reflexivity.
Qed.

(** [part_001]'s [/start] redirects to Discord exactly when the state is
    present, its ticket could be read, exists, is unused and is at most
    [maxAgeMs] (15 minutes) old; the state is forwarded unchanged. *)
Theorem part001_start_authorize_iff cfg e state w ps :
  fst (run (Part001.start cfg e state) w) = Ok (Redirect (Authorize ps)) <->
  is_missing state = false /\ fails e GetState = false /\
  (exists t, states w !! or_empty state = Some t /\ used t = false /\
             now e - createdAt t <= Part001.maxAgeMs) /\
  ps = Part001.authorize_params cfg (or_empty state).
Proof.
  unfold Part001.start. autorewrite with run_db.
  destruct (is_missing state); simpl.
  { split; [discriminate | intros (? & _); discriminate]. }
  autorewrite with run_db. destruct (fails e GetState); simpl.
  { split; [discriminate | intros (_ & ? & _); discriminate]. }
  destruct (states w !! or_empty state) as [t|]; simpl.
  2: { split; [discriminate | intros (_ & _ & (? & ? & _) & _); discriminate]. }
  destruct (used t) eqn:Hu; simpl.
  { split; [discriminate | intros (_ & _ & (? & Ht & Hu' & _) & _); simplify_eq; congruence]. }
  destruct (Z.gtb_spec (now e - createdAt t) Part001.maxAgeMs); simpl.
  - split; [discriminate | intros (_ & _ & (? & Ht & _ & Hle) & _); simplify_eq; lia].
  - split; [intros Hr; simplify_eq; split_and!; eauto | intros (_ & _ & _ & ->); reflexivity].
Qed.

Lemma part000_start_exn cfg e state w :
  fst (run (Part000.start cfg e state) w) = Exn <->
  is_missing state = false /\ fails e GetState = true.
Proof.
  unfold Part000.start.
  destruct (is_missing state); simpl; [split; [discriminate | intros (? & _); discriminate]|].
  autorewrite with run_db. destruct (fails e GetState); simpl; [tauto|].
  destruct (states w !! or_empty state) as [[[] ?]|]; simpl;
    split; try discriminate; intros (_ & ?); discriminate.
Qed.

(** [part_000]'s [/start] redirects to Discord exactly when the state is
    present, its ticket could be read, exists and is unused: the age of the
    ticket plays no part. The target is [Part000.oauthUrl], in which the
    state stands as it is, not percent-encoded. *)
Theorem part000_start_authorize_iff cfg e state w url :
  fst (run (Part000.start cfg e state) w) = Ok (Redirect (AuthorizeUrl url)) <->
  is_missing state = false /\ fails e GetState = false /\
  ticket_usable (states w !! or_empty state) = true /\
  url = Part000.oauthUrl cfg (or_empty state).
Proof.
  unfold Part000.start.
  destruct (is_missing state); simpl; [split; [discriminate | intros (? & _); discriminate]|].
  autorewrite with run_db. destruct (fails e GetState); simpl.
  { split; [discriminate | intros (_ & ? & _); discriminate]. }
  destruct (states w !! or_empty state) as [t|]; simpl.
  2: { split; [discriminate | intros (_ & _ & ? & _); discriminate]. }
  destruct (used t); simpl.
  - split; [discriminate | intros (_ & _ & ? & _); discriminate].
  - split; [intros Hr; simplify_eq; tauto | intros (_ & _ & _ & ->); reflexivity].
Qed.

(** A rejected ticket read escapes [part_000]'s [/start] as an exception
    (it has no [try]), and that is the only way it fails; the [/start] of
    [part_001] and of [index.cjs] never lets an exception escape. *)
Theorem start_handlers_exceptions cfg e state w :
  (fst (run (Part000.start cfg e state) w) = Exn <->
     is_missing state = false /\ fails e GetState = true) /\
  fst (run (Part001.start cfg e state) w) <> Exn /\
  fst (run (Index.start cfg e state) w) <> Exn.
Proof.
  split_and!.
  - apply part000_start_exn.
  - destruct (run _ w) as [r w'] eqn:H. unfold Part001.start in H. sym H; discriminate.
  - destruct (run _ w) as [r w'] eqn:H. unfold Index.start in H. sym H; discriminate.
Qed.

Lemma digit_not_space c : is_digit c = true -> is_js_space c = false.
Proof. destruct c as [[] [] [] [] [] [] [] []]; vm_compute; intros H; first [reflexivity | discriminate H]. Qed.

Lemma drop_space_digits l : (forall c, In c l -> is_digit c = true) -> drop_space l = l.
Proof.
  destruct l as [|c l]; intros H; [done|]. simpl.
  rewrite digit_not_space; [done|]. apply H. left. done.
Qed.

Lemma trim_snowflake k : is_snowflake k = true -> trim k = k.
Proof.
  unfold is_snowflake, trim. intros H.
  apply andb_true_iff in H as [_ H]. rewrite forallb_forall in H.
  rewrite (drop_space_digits (list_ascii_of_string k)) by exact H.
  rewrite (drop_space_digits (rev _)) by (intros c Hc; apply H; apply in_rev; exact Hc).
  rewrite rev_involutive.
  apply string_of_list_ascii_of_string.
Qed.

(** When [index.cjs]'s [/start] redirects, the state it forwards is the
    trimmed query state, a 17 to 20 digit id; when Discord echoes it to the
    callback, it is present and it is the mapping key, whatever id the
    identity endpoint returns. *)
Theorem index_start_state_is_mapping_key cfg e state w ps :
  fst (run (Index.start cfg e state) w) = Ok (Redirect (Authorize ps)) ->
  exists k, k = trim (or_empty state) /\ is_snowflake k = true /\
    ps = Index.authorize_params cfg k /\
    is_missing (Some k) = false /\
    forall fetched, Index.mapping_key (Some k) fetched = k.
Proof.
  unfold Index.start. autorewrite with run_db.
  destruct (is_snowflake (trim (or_empty state))) eqn:Hs; simpl; intros H; simplify_eq.
  exists (trim (or_empty state)). split_and!; try done.
  - simpl. destruct (String.eqb_spec (trim (or_empty state)) "") as [He|]; [|done].
    rewrite He in Hs. discriminate.
  - intros f. unfold Index.mapping_key. simpl. rewrite trim_snowflake, Hs; done.
Qed.

Lemma index_start_state_is_mapping_key_witness :
  fst (run (Index.start cfg_demo env_ok (Some "  123456789012345678 ")) w_demo)
    = Ok (Redirect (Authorize (Index.authorize_params cfg_demo alice_id))) /\
  exists k, k = trim (or_empty (Some "  123456789012345678 ")) /\ is_snowflake k = true /\
    Index.authorize_params cfg_demo alice_id = Index.authorize_params cfg_demo k /\
    is_missing (Some k) = false /\
    forall fetched, Index.mapping_key (Some k) fetched = k.
Proof.
  split; [vm_compute; reflexivity|].
  apply (index_start_state_is_mapping_key cfg_demo env_ok (Some "  123456789012345678 ") w_demo).
  vm_compute; reflexivity.
Defined.

Ltac negb_facts H :=
  simpl in H; repeat rewrite andb_true_iff in H;
  repeat match type of H with
  | _ /\ _ => let H1 := fresh "Hf" in destruct H as [H1 H]; apply negb_true_iff in H1
  | negb _ = true => apply negb_true_iff in H
  end.

(** Two equations on the same left-hand side. *)

Ltac same_facts :=
  repeat match goal with
  | H1 : ?x = ?v, H2 : ?x = ?v' |- _ => rewrite H1 in H2; simplify_eq
  end.

(** In [part_000] and [part_001], when every store operation succeeds
    but [createCustomToken] rejects, the callback answers with the error
    redirect and the ticket is already marked used: the user cannot retry
    with it. *)
Theorem credential_failure_consumes_ticket :
  (forall e code state w t tk me u r w',
     is_missing code = false -> is_missing state = false ->
     states w !! or_empty state = Some t -> used t = false ->
     forallb (fun o => negb (fails e o))
       [GetState; QueryUsers; SetUser; UpdateUser; GetUser; MarkUsed] = true ->
     fails e CreateToken = true ->
     token_res e = Resp true (Some tk) -> me_res e (access_token tk) = Resp true (Some me) ->
     me_username me = Some u ->
     run (Part001.callback e code state) w = (r, w') ->
     r = Ok (Redirect ErrorPage) /\
     states w' !! or_empty state = Some (mkTicket true (createdAt t))) /\
  (forall e code state w t tk ok me ok' E r w',
     is_missing code = false -> is_missing state = false ->
     states w !! or_empty state = Some t -> used t = false ->
     forallb (fun o => negb (fails e o)) [GetState; QueryUsers; SetUser; MarkUsed] = true ->
     fails e CreateToken = true ->
     token_res e = Resp ok (Some tk) -> me_res e (access_token tk) = Resp ok' (Some me) ->
     me_id me = Some E ->
     run (Part000.callback e code state) w = (r, w') ->
     r = Ok (Redirect ErrorPage) /\
     states w' !! or_empty state = Some (mkTicket true (createdAt t))).
Proof.
  split.
  - intros e code state w t tk me u r w' Hc Hs Ht Hu Hf Hct Htk Hme Hun H.
    negb_facts Hf. unfold Part001.callback in H. rewrite Hc, Hs in H.
    sym H; use_frames; rewrite ?Htk, ?Hme in *; simplify_eq; try congruence.
    all: same_facts.
    all: try (exfalso; rewrite Hun in Heqp; eapply Part001_reconcile_completes; [..| eassumption | done]; done).
    all: rewrite ?Hs0 in *; simplify_eq; split; [done | simpl; apply lookup_insert_eq].
  - intros e code state w t tk ok me ok' E r w' Hc Hs Ht Hu Hf Hct Htk Hme Hid H.
    negb_facts Hf. unfold Part000.callback in H. rewrite Hc, Hs in H.
    sym H; use_frames; rewrite ?Htk, ?Hme in *; simplify_eq; try congruence.
    all: same_facts.
    all: try (exfalso; eapply Part000_reconcile_completes; [..| eassumption | done]; done).
    all: rewrite ?Hs0 in *; simplify_eq; split; [done | simpl; apply lookup_insert_eq].
Qed.

(** The [index.cjs] callback never writes a ticket. *)
Theorem index_callback_never_writes_tickets e code state w :
  states (snd (run (Index.callback e code state) w)) = states w.
Proof.
  destruct (run _ w) as [r w'] eqn:H. simpl. unfold Index.callback in H.
  sym H; use_frames; simpl; congruence.
Qed.

(** The [part_000] callback never writes the Realtime Database. *)
Theorem part000_callback_never_writes_rtdb e code state w :
  links (snd (run (Part000.callback e code state) w)) = links w /\
  rt_users (snd (run (Part000.callback e code state) w)) = rt_users w.
Proof.
  destruct (run _ w) as [r w'] eqn:H. simpl. unfold Part000.callback in H.
  sym H; use_frames; simpl; split; congruence.
Qed.

(** An exception escapes [part_000]'s callback exactly when [code] and
    [state] are present and the ticket read rejects: that read is outside
    the [try]. *)
Theorem part000_callback_exception_iff e code state w :
  fst (run (Part000.callback e code state) w) = Exn <->
  is_missing code = false /\ is_missing state = false /\ fails e GetState = true.
Proof.
  split.
  - destruct (run _ w) as [r w'] eqn:H; simpl; intros ->.
    unfold Part000.callback in H. sym H.
    match goal with Hb : _ || _ = false |- _ => apply orb_false_iff in Hb as [? ?] end.
    auto.
  - intros (Hc & Hs & Hf). unfold Part000.callback. rewrite Hc, Hs. simpl.
    rewrite Hf. reflexivity.
Qed.

(** An identity answer without [id]: [part_000] issues no credential and
    writes no user (Firestore refuses [undefined] in the query), while
    [part_001] links it as the id ["undefined"] (from [String(me.id)]), and
    [index.cjs] issues a credential only for a well-formed state, the user
    record again carrying ["undefined"]. *)
Theorem identity_without_id :
  (forall e code state w tk ok me ok',
     token_res e = Resp ok (Some tk) -> me_res e (access_token tk) = Resp ok' (Some me) ->
     me_id me = None ->
     is_success (fst (run (Part000.callback e code state) w)) = false /\
     users (snd (run (Part000.callback e code state) w)) = users w) /\
  (forall e code state w tk me c w',
     token_res e = Resp true (Some tk) -> me_res e (access_token tk) = Resp true (Some me) ->
     me_id me = None ->
     run (Part001.callback e code state) w = (Ok (Redirect (SuccessPage c)), w') ->
     cred_claims c = [("discordId", "undefined")] /\
     exists d, users w' !! cred_uid c = Some d /\ d !! "discordId" = Some (VStr "undefined")) /\
  (forall e code state w tk me c w',
     token_res e = Resp true (Some tk) -> me_res e (access_token tk) = Resp true (Some me) ->
     me_id me = None ->
     run (Index.callback e code state) w = (Ok (Redirect (SuccessPage c)), w') ->
     is_snowflake (trim (or_empty state)) = true /\
     cred_claims c = [("discordId", trim (or_empty state))] /\
     exists d, users w' !! cred_uid c = Some d /\ d !! "discordId" = Some (VStr "undefined")).
Proof.
  split_and!.
  - intros e code state w tk ok me ok' Htk Hme Hid.
    destruct (run _ w) as [r w'] eqn:H. simpl. unfold Part000.callback in H.
    sym H; use_frames; rewrite ?Htk in *; simplify_eq; same_facts.
    all: try (rewrite Part000_reconcile_no_id in Heqp by exact Hid; simplify_eq).
    all: split; [reflexivity | simpl; congruence].
  - intros e code state w tk me c w' Htk Hme Hid H.
    destruct (Part001_callback_success _ _ _ _ _ _ H)
      as (t & tk' & me' & w1 & _ & _ & Htk' & Hme' & Hrec & _ & Hu & _ & Hcl).
    rewrite Htk in Htk'. simplify_eq. rewrite Hme in Hme'. simplify_eq.
    rewrite Hid in Hcl, Hrec. split; [exact Hcl|].
    destruct (Part001_reconcile_ok _ _ _ _ _ _ _ Hrec) as [(d & Hd & HE) _].
    rewrite Hu. eauto.
  - intros e code state w tk me c w' Htk Hme Hid H.
    destruct (Index_callback_success _ _ _ _ _ _ H)
      as (tk' & me' & w1 & Htk' & Hme' & Hrec & Hsn & _ & Hu & _ & _ & Hcl).
    rewrite Htk in Htk'. simplify_eq. rewrite Hme in Hme'. simplify_eq.
    rewrite Hid in Hcl, Hrec, Hsn. unfold Index.mapping_key in Hcl, Hsn.
    destruct (is_snowflake (trim (or_empty state))) eqn:Hs; [|discriminate].
    split_and!; [done | exact Hcl |].
    destruct (Part001_reconcile_ok _ _ _ _ _ _ _ Hrec) as [(d & Hd & HE) _].
    rewrite Hu. eauto.
Qed.

(** An identity answer without [username]: [part_001] and [index.cjs]
    issue no credential and leave the user documents unchanged, since
    the write carries an [undefined] field. *)
Theorem identity_without_username e code state w tk me :
  token_res e = Resp true (Some tk) -> me_res e (access_token tk) = Resp true (Some me) ->
  me_username me = None ->
  (is_success (fst (run (Part001.callback e code state) w)) = false /\
   users (snd (run (Part001.callback e code state) w)) = users w) /\
  (is_success (fst (run (Index.callback e code state) w)) = false /\
   users (snd (run (Index.callback e code state) w)) = users w).
Proof.
  intros Htk Hme Hun. split.
  - destruct (run _ w) as [r w'] eqn:H. simpl. unfold Part001.callback in H.
    sym H; use_frames; rewrite ?Htk in *; simplify_eq; same_facts.
    all: try (rewrite Hun, Part001_reconcile_no_username in Heqp; simplify_eq).
    all: split; [reflexivity | simpl; congruence].
  - destruct (run _ w) as [r w'] eqn:H. simpl. unfold Index.callback in H.
    sym H; use_frames; rewrite ?Htk in *; simplify_eq; same_facts.
    all: try (rewrite Hun, Part001_reconcile_no_username in Heqp; simplify_eq).
    all: split; [reflexivity | simpl; congruence].
Qed.


(** In [part_001], when the [discordLinks] write rejects, the mirror write
    [users/{uid}/discordId] is skipped too: the Realtime Database is left
    as it was. *)
Theorem part001_mirror_write_needs_mapping_write e code state w :
  fails e SetLink = true ->
  links (snd (run (Part001.callback e code state) w)) = links w /\
  rt_users (snd (run (Part001.callback e code state) w)) = rt_users w.
Proof.
  intros Hl. destruct (run _ w) as [r w'] eqn:H. simpl. unfold Part001.callback in H.
  sym H; use_frames; simpl; split; congruence.
Qed.

Lemma part001_mirror_write_needs_mapping_write_witness :
  fails env_nolink SetLink = true /\
  links (snd (run (Part001.callback env_nolink (Some "c") (Some "T1")) w_demo)) = links w_demo /\
  rt_users (snd (run (Part001.callback env_nolink (Some "c") (Some "T1")) w_demo)) = rt_users w_demo.
Proof.
  split; [vm_compute; reflexivity|].
  apply (part001_mirror_write_needs_mapping_write env_nolink (Some "c") (Some "T1") w_demo).
  vm_compute; reflexivity.
Defined.

Lemma credential_failure_consumes_ticket_witness :
  (run (Part001.callback env_nocred (Some "c") (Some "T1")) w_demo
     = (Ok (Redirect ErrorPage), snd (run (Part001.callback env_nocred (Some "c") (Some "T1")) w_demo)) /\
   states (snd (run (Part001.callback env_nocred (Some "c") (Some "T1")) w_demo)) !! "T1"
     = Some (mkTicket true 0)) /\
  (run (Part000.callback env_nocred (Some "c") (Some "T1")) w_demo
     = (Ok (Redirect ErrorPage), snd (run (Part000.callback env_nocred (Some "c") (Some "T1")) w_demo)) /\
   states (snd (run (Part000.callback env_nocred (Some "c") (Some "T1")) w_demo)) !! "T1"
     = Some (mkTicket true 0)).
Proof.
  pose proof credential_failure_consumes_ticket as (H1 & H0).
  split.
  - refine (conj _ _); [vm_compute; reflexivity|].
    refine (proj2 (H1 env_nocred (Some "c") (Some "T1") w_demo (mkTicket false 0)
             (mkTokenJson (Some "tok")) alice "alice" (Ok (Redirect ErrorPage))
             (snd (run (Part001.callback env_nocred (Some "c") (Some "T1")) w_demo)) _ _ _ _ _ _ _ _ _ _));
      vm_compute; reflexivity.
  - refine (conj _ _); [vm_compute; reflexivity|].
    refine (proj2 (H0 env_nocred (Some "c") (Some "T1") w_demo (mkTicket false 0)
             (mkTokenJson (Some "tok")) true alice true alice_id (Ok (Redirect ErrorPage))
             (snd (run (Part000.callback env_nocred (Some "c") (Some "T1")) w_demo)) _ _ _ _ _ _ _ _ _ _));
      vm_compute; reflexivity.
Defined.

Lemma identity_without_id_witness :
  (is_success (fst (run (Part000.callback env_noid (Some "c") (Some "T1")) w_demo)) = false /\
   users (snd (run (Part000.callback env_noid (Some "c") (Some "T1")) w_demo)) = users w_demo) /\
  (cred_claims (mkCred "newUserDoc" [("discordId", "undefined")]) = [("discordId", "undefined")] /\
   exists d, users (snd (run (Part001.callback env_noid (Some "c") (Some "T1")) w_demo))
               !! cred_uid (mkCred "newUserDoc" [("discordId", "undefined")]) = Some d /\
             d !! "discordId" = Some (VStr "undefined")) /\
  (is_snowflake (trim (or_empty (Some alice_id))) = true /\
   cred_claims (mkCred "newUserDoc" [("discordId", alice_id)])
     = [("discordId", trim (or_empty (Some alice_id)))] /\
   exists d, users (snd (run (Index.callback env_noid (Some "c") (Some alice_id)) w_demo))
               !! cred_uid (mkCred "newUserDoc" [("discordId", alice_id)]) = Some d /\
             d !! "discordId" = Some (VStr "undefined")).
Proof.
  pose proof identity_without_id as (H0 & H1 & H2).
  refine (conj _ (conj _ _)).
  - apply (H0 env_noid (Some "c") (Some "T1") w_demo (mkTokenJson (Some "tok")) true no_id true);
      vm_compute; reflexivity.
  - apply (H1 env_noid (Some "c") (Some "T1") w_demo (mkTokenJson (Some "tok")) no_id
             (mkCred "newUserDoc" [("discordId", "undefined")])
             (snd (run (Part001.callback env_noid (Some "c") (Some "T1")) w_demo)));
      vm_compute; reflexivity.
  - apply (H2 env_noid (Some "c") (Some alice_id) w_demo (mkTokenJson (Some "tok")) no_id
             (mkCred "newUserDoc" [("discordId", alice_id)])
             (snd (run (Index.callback env_noid (Some "c") (Some alice_id)) w_demo)));
      vm_compute; reflexivity.
Defined.

Lemma identity_without_username_witness :
  (is_success (fst (run (Part001.callback env_noname (Some "c") (Some "T1")) w_demo)) = false /\
   users (snd (run (Part001.callback env_noname (Some "c") (Some "T1")) w_demo)) = users w_demo) /\
  (is_success (fst (run (Index.callback env_noname (Some "c") (Some alice_id)) w_known)) = false /\
   users (snd (run (Index.callback env_noname (Some "c") (Some alice_id)) w_known)) = users w_known).
Proof.
  split.
  - apply (identity_without_username env_noname (Some "c") (Some "T1") w_demo
             (mkTokenJson (Some "tok")) no_name); vm_compute; reflexivity.
  - apply (identity_without_username env_noname (Some "c") (Some alice_id) w_known
             (mkTokenJson (Some "tok")) no_name); vm_compute; reflexivity.
Defined.

